(** * 50Hz dashboard: the scenario projection of [Final_Prototype.py]

    A shallow embedding of [generate_future_scenarios_enhanced]
    (src/Final_Prototype.py, lines 750-876), of the lines of the
    dashboard script that prepare its arguments and read its result
    (lines 878-895, 966-990, 1122-1148, 1175-1228), of the loader
    [load_generation_data] (lines 108-146) and of the key metrics of the
    historical tab (lines 245, 328-347).

    Numbers.  The script computes on IEEE doubles.  They are idealised here
    as exact rationals ([Q]) extended with a not-a-number value, which is
    the one special value the function can produce (the mean of an empty
    frame, the slope of a one-point regression).  Rounding is not
    modelled; equalities between computed values are stated up to [Qeq].

    Tables.  A pandas frame of annual generation totals is a list of rows
    in frame order; every row carries the three technology columns that
    [load_generation_data] (lines 109-146) always writes.

    Environment.  The script fixes neither the release of SciPy nor the
    names of the sheets of its workbook.  What depends on them, the
    answer of [linregress] to no points and Python's [str.isdigit] and
    [int] on a sheet name, is a variable of the development: every
    statement holds for each release and for every behaviour of the two
    builtins. *)

From Stdlib Require Import ZArith QArith Qpower Qminmax List String Bool Lia Lqa.
From Stdlib Require Import DecimalString.
Import ListNotations.

Local Open Scope string_scope.
Local Open Scope Z_scope.
Local Open Scope Q_scope.

(** ** Python values *)

(** A double: a finite value or [nan]. *)
Inductive pyfloat : Type :=
| Fin (q : Q)
| NaN.

Definition fadd (a b : pyfloat) : pyfloat :=
  match a, b with
  | Fin x, Fin y => Fin (x + y)
  | _, _ => NaN
  end.

Definition fsub (a b : pyfloat) : pyfloat :=
  match a, b with
  | Fin x, Fin y => Fin (x - y)
  | _, _ => NaN
  end.

Definition fmul (a b : pyfloat) : pyfloat :=
  match a, b with
  | Fin x, Fin y => Fin (x * y)
  | _, _ => NaN
  end.

(** Equality of doubles up to the value of the rational; [nan] is only
    related to itself (this is the meta-level "same result", not Python's
    [==]). *)
Definition feq (a b : pyfloat) : Prop :=
  match a, b with
  | Fin x, Fin y => x == y
  | NaN, NaN => True
  | _, _ => False
  end.

(** The exceptions the function can raise.  None of them is caught inside
    the function: every one reaches the caller. *)
Inductive exception : Type :=
| ValueError (msg : string)
| NameError (name : string)
| IndexError.

Inductive result (A : Type) : Type :=
| Ok (a : A)
| Raise (e : exception).

Arguments Ok {A} a.
Arguments Raise {A} e.

Definition bind {A B : Type} (m : result A) (k : A -> result B) : result B :=
  match m with
  | Ok a => k a
  | Raise e => Raise e
  end.

Notation "x <- m ;; k" := (bind m (fun x => k))
  (at level 61, m at next level, right associativity).

Definition raises {A : Type} (m : result A) : bool :=
  match m with Ok _ => false | Raise _ => true end.

(** A loop whose body may raise: the first exception ends it. *)
Fixpoint for_each {A B : Type} (f : A -> result B) (l : list A)
  : result (list B) :=
  match l with
  | [] => Ok []
  | a :: rest =>
    b <- f a ;;
    bs <- for_each f rest ;;
    Ok (b :: bs)
  end.

(** What a block of the script shows: a value, or the [KeyError] of a
    column that the frame does not have.  A frame built from no rows
    ([pd.DataFrame([])], [pd.DataFrame()]) has no columns at all. *)
Inductive view (A : Type) : Type :=
| Shown (a : A)
| KeyError (column : string).

Arguments Shown {A} a.
Arguments KeyError {A} column.

(** [min(a, b)] of Python: the first argument unless the second is
    strictly smaller. *)
Definition pymin (a b : Q) : Q :=
  if Qlt_le_dec b a then b else a.

(** [range(lo, hi)]. *)
Definition range (lo hi : Z) : list Z :=
  map (fun i => (lo + Z.of_nat i)%Z) (seq 0 (Z.to_nat (hi - lo))).

(** ** Tables *)

(** One row of [generation_df]: a year and the three annual totals. *)
Module History.
Record row : Type := mk {
  Year : Z;
  Photovoltaics : Q;      (* 'Photovoltaics [MWh]' *)
  Wind_Onshore : Q;       (* 'Wind Onshore [MWh]' *)
  Wind_Offshore : Q       (* 'Wind Offshore [MWh]' *)
}.
End History.

Definition DataFrame : Type := list History.row.

(** [base_df.empty] *)
Definition empty (df : DataFrame) : bool :=
  match df with [] => true | _ :: _ => false end.

(** [base_df['Year'].max()], for a frame with at least one row. *)
Definition year_max (df : DataFrame) : Z :=
  match df with
  | [] => 0%Z
  | r :: rest => fold_left Z.max (map History.Year rest) (History.Year r)
  end.

(** [base_df[base_df['Year'] >= y]] and [base_df[base_df['Year'] == y]]. *)
Definition year_ge (y : Z) (df : DataFrame) : DataFrame :=
  filter (fun r => (y <=? History.Year r)%Z) df.

Definition year_eq (y : Z) (df : DataFrame) : DataFrame :=
  filter (fun r => (History.Year r =? y)%Z) df.

Definition Qsum (l : list Q) : Q := fold_right Qplus 0 l.

Definition Qlen {A : Type} (l : list A) : Q := inject_Z (Z.of_nat (List.length l)).

(** The mean of one column, as [DataFrame.mean] and [np.mean] compute it;
    [nan] for a column without entries. *)
Definition mean (col : list Q) : pyfloat :=
  match col with
  | [] => NaN
  | _ :: _ => Fin (Qsum col / Qlen col)
  end.

(** One dictionary appended to [scenario_data]. *)
Module Scenario.
Record row : Type := mk {
  Year : Z;
  Photovoltaics : pyfloat;
  Wind_Onshore : pyfloat;
  Wind_Offshore : pyfloat;
  Total_Renewable : pyfloat;
  Renewable_Share : Q;            (* 'Renewable Share [%]' *)
  Scenario : string;
  Projection_Method : string
}.
End Scenario.

(** One time step of a sheet of the workbook: the year of its start date
    and the three generation columns, a missing cell being [nan].  The
    workbook is taken with the columns the loader reads and a start date
    in every time step; whatever makes reading it fail is the workbook
    [None]. *)
Module Raw.
Record row : Type := mk {
  Start_year : Z;               (* [df['Start date'].dt.year] *)
  Photovoltaics : pyfloat;      (* 'Photovoltaics [MWh] Original resolutions' *)
  Wind_onshore : pyfloat;       (* 'Wind onshore [MWh] Original resolutions' *)
  Wind_offshore : pyfloat       (* 'Wind offshore [MWh] Original resolutions' *)
}.
End Raw.

Record Sheet : Type := mkSheet {
  sheet_name : string;
  sheet_rows : list Raw.row
}.

(** One row of the annual frame the loader returns. *)
Module Annual.
Record row : Type := mk {
  Year : Z;
  Photovoltaics : Q;
  Wind_Onshore : Q;
  Wind_Offshore : Q;
  Total_Generation : Q
}.
End Annual.

(** ** What the script takes from its environment

    The repository pins no version of SciPy, and the releases differ on
    a regression without points: those up to 1.15 raise [ValueError],
    release 1.17 answers [nan]. *)
Inductive scipy : Type :=
| RaisesOnEmpty
| NanOnEmpty.

(** [str.isdigit] and [int] restricted to names written in ASCII digits:
    the instance the sample workbooks below are read with. *)
Definition is_digit (c : Ascii.ascii) : bool :=
  ((48 <=? Ascii.nat_of_ascii c) && (Ascii.nat_of_ascii c <=? 57))%nat.

Fixpoint all_digits (s : string) : bool :=
  match s with
  | EmptyString => true
  | String c rest => is_digit c && all_digits rest
  end.

Definition ascii_isdigit (s : string) : bool :=
  match s with
  | EmptyString => false
  | String _ _ => all_digits s
  end.

Fixpoint decimal_value (acc : Z) (s : string) : Z :=
  match s with
  | EmptyString => acc
  | String c rest =>
    decimal_value (10 * acc + (Z.of_nat (Ascii.nat_of_ascii c) - 48))%Z rest
  end.

Definition ascii_int (s : string) : option Z :=
  if ascii_isdigit s then Some (decimal_value 0 s) else None.

Section Dashboard.

(** The SciPy the script runs with. *)
Variable lib : scipy.

(** Python's [str.isdigit] and [int] on the names of the sheets.  They
    are not fixed here: [isdigit] also holds of names written in other
    digits than the ASCII ones, among them some that [int] refuses (a
    superscript two); [int] then raises [ValueError], here [None]. *)
Variable str_isdigit : string -> bool.
Variable int_of_str : string -> option Z.

(** ** [scipy.stats.linregress]

    The library routine, after its documentation and source: on empty
    inputs it raises or answers [nan], depending on the release; it
    refuses two or more points whose abscissas are all identical, and
    otherwise returns
    [slope = ssxym / ssxm], [intercept = ymean - slope * xmean],
    where [ssxm] and [ssxym] are the (biased) variance of [x] and
    covariance of [x] and [y].  With a single point both are [0.0] and the
    quotient is [nan]. *)

Definition amax (x : list Q) : Q :=
  match x with
  | [] => 0
  | a :: rest => fold_left (fun m v => if Qlt_le_dec m v then v else m) rest a
  end.

Definition amin (x : list Q) : Q :=
  match x with
  | [] => 0
  | a :: rest => fold_left (fun m v => if Qlt_le_dec v m then v else m) rest a
  end.

Definition qmean (x : list Q) : Q := Qsum x / Qlen x.

Definition ssxm (x : list Q) : Q :=
  qmean (map (fun xi => (xi - qmean x) * (xi - qmean x)) x).

Definition ssxym (x y : list Q) : Q :=
  qmean (map (fun p => (fst p - qmean x) * (snd p - qmean y)) (combine x y)).

Definition linregress (x y : list Q) : result (pyfloat * pyfloat) :=
  match x, y with
  | [], _ | _, [] =>
    match lib with
    | RaisesOnEmpty => Raise (ValueError "Inputs must not be empty.")
    | NanOnEmpty => Ok (NaN, NaN)
    end
  | _, _ =>
    if Qeq_bool (amax x) (amin x) && (1 <? List.length x)%nat then
      Raise (ValueError
        "Cannot calculate a linear regression if all x values are identical")
    else
      let xmean := qmean x in
      let ymean := qmean y in
      let slope :=
        if Qeq_bool (ssxm x) 0 then NaN      (* 0.0 / 0.0 *)
        else Fin (ssxym x y / ssxm x) in
      let intercept := fsub (Fin ymean) (fmul slope (Fin xmean)) in
      Ok (slope, intercept)
  end.

(** ** The function's dictionaries *)

(** [base_values] *)
Record BaseValues : Type := mkBase {
  solar_mwh : pyfloat;
  wind_onshore_mwh : pyfloat;
  wind_offshore_mwh : pyfloat
}.

(** [params] / [custom_params] *)
Record Params : Type := mkParams {
  solar_growth : Q;
  wind_onshore_growth : Q;
  wind_offshore_growth : Q;
  efficiency_improvement : Q;
  renewable_target_2050 : Q
}.

(** The four sidebar sliders of the "Custom" scenario (lines 708-742), in
    percent.  They are script-level variables that exist only once the
    sidebar block has run; the function reads them as free variables. *)
Record Sliders : Type := mkSliders {
  solar_growth_pct : Q;
  wind_onshore_growth_pct : Q;
  wind_offshore_growth_pct : Q;
  efficiency_improvement_pct : Q
}.

(** ** Lines 755-813: base year and base values *)

Definition default_base_values : BaseValues :=
  mkBase (Fin 15000000) (Fin 35000000) (Fin 5000000).

(** [slope * base_year + intercept] for one technology column. *)
Definition trend_value (df : DataFrame) (tech : History.row -> Q)
    (base_year : Z) : result pyfloat :=
  fit <- linregress (map (fun r => inject_Z (History.Year r)) df) (map tech df) ;;
  Ok (fadd (fmul (fst fit) (Fin (inject_Z base_year))) (snd fit)).

Definition trend_values (df : DataFrame) (base_year : Z) : result BaseValues :=
  pv <- trend_value df History.Photovoltaics base_year ;;
  won <- trend_value df History.Wind_Onshore base_year ;;
  woff <- trend_value df History.Wind_Offshore base_year ;;
  Ok (mkBase pv won woff).

Definition base_year_and_values (base_df : DataFrame)
    (projection_method : string) : result (Z * BaseValues) :=
  if empty base_df then
    Ok (2025%Z, default_base_values)
  else if String.eqb projection_method "Last Year Available (2025)" then
    let base_year := year_max base_df in
    match year_eq base_year base_df with
    | r :: _ =>                                  (* [.values[0]] *)
      Ok (base_year,
          mkBase (Fin (History.Photovoltaics r))
                 (Fin (History.Wind_Onshore r))
                 (Fin (History.Wind_Offshore r)))
    | [] => Raise IndexError
    end
  else if String.eqb projection_method "3-Year Average (2023-2025)" then
    let recent_years := year_ge 2023 base_df in
    let base_year := 2025%Z in
    Ok (base_year,
        mkBase (mean (map History.Photovoltaics recent_years))
               (mean (map History.Wind_Onshore recent_years))
               (mean (map History.Wind_Offshore recent_years)))
  else if String.eqb projection_method "5-Year Trend (2021-2025)" then
    let recent_years := year_ge 2021 base_df in
    let base_year := 2025%Z in
    bv <- trend_values recent_years base_year ;;
    Ok (base_year, bv)
  else
    let base_year := 2025%Z in
    bv <- trend_values base_df base_year ;;
    Ok (base_year, bv).

(** ** Lines 815-847: scenario parameters *)

Definition params_of_sliders (s : Sliders) : Params :=
  mkParams (solar_growth_pct s / 100)
           (wind_onshore_growth_pct s / 100)
           (wind_offshore_growth_pct s / 100)
           (efficiency_improvement_pct s / 100)
           0.90.

Definition scenario_params (scenario_type : string)
    (custom_params : option Params) (sliders : option Sliders)
  : result Params :=
  if String.eqb scenario_type "Conservative" then
    Ok (mkParams 0.04 0.02 0.06 0.005 0.70)
  else if String.eqb scenario_type "Business as Usual" then
    Ok (mkParams 0.075 0.04 0.12 0.015 0.85)
  else if String.eqb scenario_type "Ambitious" then
    Ok (mkParams 0.12 0.07 0.18 0.025 0.95)
  else
    match custom_params with
    | Some p => Ok p
    | None =>
      match sliders with
      | Some s => Ok (params_of_sliders s)
      | None => Raise (NameError "solar_growth")
      end
    end.

(** ** Lines 849-876: the projected rows *)

Definition renewable_share (target : Q) (base_year year : Z) : Q :=
  let years_from_base := (year - base_year)%Z in
  pymin target
        (0.45 + (target - 0.45)
                * (inject_Z years_from_base / inject_Z (2050 - base_year))).

Definition scenario_row (scenario_type projection_method : string)
    (base_year : Z) (base_values : BaseValues) (params : Params) (year : Z)
  : Scenario.row :=
  let years_from_base := (year - base_year)%Z in
  let solar :=
    fmul (solar_mwh base_values)
         (Fin ((1 + solar_growth params) ^ years_from_base)) in
  let wind_onshore :=
    fmul (wind_onshore_mwh base_values)
         (Fin ((1 + wind_onshore_growth params) ^ years_from_base)) in
  let wind_offshore :=
    fmul (wind_offshore_mwh base_values)
         (Fin ((1 + wind_offshore_growth params) ^ years_from_base)) in
  let total_renewable := fadd (fadd solar wind_onshore) wind_offshore in
  Scenario.mk year solar wind_onshore wind_offshore total_renewable
              (renewable_share (renewable_target_2050 params) base_year year * 100)
              scenario_type projection_method.

Definition scenario_rows (scenario_type projection_method : string)
    (base_year : Z) (base_values : BaseValues) (params : Params)
  : list Scenario.row :=
  let years := range (base_year + 1) 2051 in
  map (scenario_row scenario_type projection_method base_year base_values params)
      years.

(** ** The function *)

Definition generate_future_scenarios_enhanced (sliders : option Sliders)
    (base_df : DataFrame) (scenario_type projection_method : string)
    (custom_params : option Params)
  : result (list Scenario.row * Z * BaseValues) :=
  base <- base_year_and_values base_df projection_method ;;
  params <- scenario_params scenario_type custom_params sliders ;;
  let base_year := fst base in
  let base_values := snd base in
  Ok (scenario_rows scenario_type projection_method base_year base_values params,
      base_year, base_values).

(** Lines 878-887: how the dashboard builds [custom_params]. *)
Definition prepare_custom_params (scenario_type : string)
    (sliders : option Sliders) : option Params :=
  if String.eqb scenario_type "Custom" then
    match sliders with
    | Some s => Some (params_of_sliders s)
    | None => None
    end
  else None.

(** The year the projection ends with: the literal of lines 850 and 863. *)
Definition horizon_year : Z := 2050.

(** ** Derived notions used in the statements *)

(** The scenario names with a parameter set of their own. *)
Definition named_scenario (sc : string) : bool :=
  String.eqb sc "Conservative" || String.eqb sc "Business as Usual"
  || String.eqb sc "Ambitious".

(** The sum of squared residuals of the line [a * x + b] on the points. *)
Definition sse (pts : list (Q * Q)) (a b : Q) : Q :=
  Qsum (map (fun p => (snd p - (a * fst p + b)) * (snd p - (a * fst p + b)))
            pts).

(** [(a, b)] is a least-squares line of the points. *)
Definition least_squares (pts : list (Q * Q)) (a b : Q) : Prop :=
  forall a' b', sse pts a b <= sse pts a' b'.

(** The rows a trend method fits: from 2021 on, or the whole frame. *)
Definition trend_window (projection_method : string) (df : DataFrame)
  : DataFrame :=
  if String.eqb projection_method "5-Year Trend (2021-2025)"
  then year_ge 2021 df else df.

(** The (year, value) points of one technology column. *)
Definition points (tech : History.row -> Q) (w : DataFrame) : list (Q * Q) :=
  map (fun r => (inject_Z (History.Year r), tech r)) w.

(** [v] is the value at [year] of the least-squares line of the column:
    a line that minimises the squared residuals, and the only one. *)
Definition ols_at (w : DataFrame) (tech : History.row -> Q) (year : Z)
    (v : pyfloat) : Prop :=
  exists a b,
    least_squares (points tech w) a b /\
    (forall a' b', least_squares (points tech w) a' b' -> a' == a /\ b' == b) /\
    v = Fin (a * inject_Z year + b).

(** The window holds rows of two different years. *)
Definition two_years (w : DataFrame) : Prop :=
  exists r1 r2, In r1 w /\ In r2 w /\ History.Year r1 <> History.Year r2.

(** The baseline in the words of the specification: the latest year
    present, and the means over the rows of the last three years. *)
Definition spec_recent_average (df : DataFrame) : Z * BaseValues :=
  let max_year := year_max df in
  let window := year_ge (max_year - 3 + 1) df in
  (max_year,
   mkBase (mean (map History.Photovoltaics window))
          (mean (map History.Wind_Onshore window))
          (mean (map History.Wind_Offshore window))).

(** The trend baseline in the words of the specification: the latest
    year present, and the least-squares line of each column over the
    rows of the last five years (or over all rows), read at that
    year. *)
Definition spec_trend_window (projection_method : string) (df : DataFrame)
  : DataFrame :=
  if String.eqb projection_method "5-Year Trend (2021-2025)"
  then year_ge (year_max df - 5 + 1) df else df.

Definition spec_trend (df : DataFrame) (projection_method : string)
  : result (Z * BaseValues) :=
  let max_year := year_max df in
  bv <- trend_values (spec_trend_window projection_method df) max_year ;;
  Ok (max_year, bv).

(** ** Sample inputs *)

Definition hist (y : Z) (pv won woff : Q) : History.row :=
  History.mk y pv won woff.

Definition df_2023_2025 : DataFrame :=
  [hist 2023 10 100 1; hist 2024 20 200 2; hist 2025 30 300 3].

Definition df_2024_2025 : DataFrame :=
  [hist 2024 10 10 10; hist 2025 14 14 14].

Definition df_2025_2026 : DataFrame :=
  [hist 2025 10 10 10; hist 2026 14 14 14].

Definition df_2023_2027 : DataFrame :=
  [hist 2023 10 10 10; hist 2024 20 20 20; hist 2025 30 30 30;
   hist 2026 40 40 40; hist 2027 50 50 50].

Definition base_2048 : BaseValues := mkBase (Fin 1000) (Fin 2000) (Fin 500).

(** The default position of the four sliders. *)
Definition sliders_default : Sliders := mkSliders 7.5 4.0 12.0 1.5.

(** The parameters of "Business as Usual". *)
Definition bau_params : Params := mkParams 0.075 0.04 0.12 0.015 0.85.

(** A parameter set of the caller's with a target of 57%. *)
Definition params_57 : Params := mkParams 0.075 0.04 0.12 0.015 0.57.

(** ** The dashboard around the function *)

(** [str(n)] for an integer. *)
Definition string_of_Z (z : Z) : string :=
  NilZero.string_of_int (Z.to_int z).

(** Lines 878-895: the script's own call. *)
Definition scenario_data_of (sliders : option Sliders) (generation_df : DataFrame)
    (scenario_type projection_method : string)
  : result (list Scenario.row * Z * BaseValues) :=
  let custom_params := prepare_custom_params scenario_type sliders in
  generate_future_scenarios_enhanced sliders generation_df scenario_type
    projection_method custom_params.

(** Lines 969-990: the four metrics of the selected year, when the
    projection has a row for it. *)
Record YearMetrics : Type := mkYearMetrics {
  solar_val : pyfloat;
  wind_onshore_val : pyfloat;
  wind_offshore_val : pyfloat;
  renewable_share_val : Q
}.

Definition year_metrics (scenario_data : list Scenario.row)
    (selected_year : Z) : option YearMetrics :=
  match scenario_data with
  | [] => None
  | _ :: _ =>
    let year_data :=
      filter (fun r => (Scenario.Year r =? selected_year)%Z) scenario_data in
    match year_data with
    | [] => None
    | r :: _ =>
      Some (mkYearMetrics (Scenario.Photovoltaics r) (Scenario.Wind_Onshore r)
                          (Scenario.Wind_Offshore r) (Scenario.Renewable_Share r))
    end
  end.

(** Lines 1125-1132: the milestones.  [Series.min()] of no year is [nan],
    here [None].  The shares are compared as the rows hold them; the
    comparison of a double with an integer threshold is exact. *)
Definition years_min (years : list Z) : option Z :=
  match years with
  | [] => None
  | y :: rest => Some (fold_left Z.min rest y)
  end.

Definition year_reached (scenario_data : list Scenario.row) (threshold : Z)
  : option Z :=
  years_min
    (map Scenario.Year
         (filter (fun r => Qle_bool (inject_Z threshold) (Scenario.Renewable_Share r))
                 scenario_data)).

Definition thresholds : list Z := [50; 65; 80; 90; 95]%Z.

(** Some row of the projection has a share of at least the threshold. *)
Definition reached (scenario_data : list Scenario.row) (threshold : Z) : bool :=
  existsb (fun r => Qle_bool (inject_Z threshold) (Scenario.Renewable_Share r))
          scenario_data.

Definition milestone_text (threshold year_reached : Z) : string :=
  "**" ++ string_of_Z threshold ++ "% renewable share:** "
       ++ string_of_Z year_reached.

Definition milestones (scenario_data : list Scenario.row) : view (list string) :=
  match scenario_data with
  | [] => KeyError "Renewable Share [%]"
  | _ :: _ =>
    Shown (flat_map
             (fun threshold =>
                match year_reached scenario_data threshold with
                | Some y => [milestone_text threshold y]
                | None => []
                end)
             thresholds)
  end.



(** Lines 1176-1189: the three named scenarios, and the custom one when
    it is the selected scenario, under one method. *)
Definition set_scenario (name : string) (r : Scenario.row) : Scenario.row :=
  Scenario.mk (Scenario.Year r) (Scenario.Photovoltaics r)
              (Scenario.Wind_Onshore r) (Scenario.Wind_Offshore r)
              (Scenario.Total_Renewable r) (Scenario.Renewable_Share r)
              name (Scenario.Projection_Method r).

Definition scenario_comparison (sliders : option Sliders)
    (generation_df : DataFrame) (scenario_type projection_method : string)
    (custom_params : option Params) : result (list Scenario.row) :=
  all_scenarios <-
    for_each
      (fun sc_type =>
         out <- generate_future_scenarios_enhanced sliders generation_df
                  sc_type projection_method None ;;
         Ok (map (set_scenario sc_type) (fst (fst out))))
      ["Conservative"; "Business as Usual"; "Ambitious"] ;;
  custom <-
    (if String.eqb scenario_type "Custom" then
       out <- generate_future_scenarios_enhanced sliders generation_df
                "Custom" projection_method custom_params ;;
       Ok [map (set_scenario "Custom") (fst (fst out))]
     else Ok []) ;;
  Ok (List.concat (all_scenarios ++ custom)).

(** Lines 1206 and 1227: the rows of 2050 and the delta shown with each
    (the number, before it is formatted): the distance to 85, except for
    "Business as Usual". *)
Definition year_2050_data (comparison_df : list Scenario.row)
  : list Scenario.row :=
  filter (fun r => (Scenario.Year r =? 2050)%Z) comparison_df.

Definition delta_2050 (r : Scenario.row) : option Q :=
  if String.eqb (Scenario.Scenario r) "Business as Usual" then None
  else Some (Scenario.Renewable_Share r - 85).

(** The share before the cap: the line from 45% at the base year to the
    target in 2050. *)
Definition share_ramp (target : Q) (base_year year : Z) : Q :=
  0.45 + (target - 0.45)
         * (inject_Z (year - base_year) / inject_Z (2050 - base_year)).

(** ** Loading the generation data (lines 108-146) *)

(** [Series.sum()]: missing values are skipped, the empty sum is 0. *)
Definition nan_as_zero (v : pyfloat) : Q :=
  match v with Fin q => q | NaN => 0 end.

Definition sum_skipna (col : list pyfloat) : Q :=
  Qsum (map nan_as_zero col).

(** [Series.unique()]: the values in the order of their first
    appearance. *)
Fixpoint unique (l : list Z) : list Z :=
  match l with
  | [] => []
  | x :: rest => x :: filter (fun y => negb (y =? x)%Z) (unique rest)
  end.

(** Lines 127-142: one row of totals per year. *)
Definition annual_row (df : list Raw.row) (year : Z) : Annual.row :=
  let year_data := filter (fun r => (Raw.Start_year r =? year)%Z) df in
  let solar_total := sum_skipna (map Raw.Photovoltaics year_data) in
  let wind_onshore_total := sum_skipna (map Raw.Wind_onshore year_data) in
  let wind_offshore_total := sum_skipna (map Raw.Wind_offshore year_data) in
  Annual.mk year solar_total wind_onshore_total wind_offshore_total
            (solar_total + wind_onshore_total + wind_offshore_total).

Definition annual_data (df : list Raw.row) : list Annual.row :=
  map (annual_row df) (unique (map Raw.Start_year df)).

(** Lines 116-120: the sheets the loop keeps.  [int(sheet_name)] raises
    [ValueError] on a name it cannot convert; the value it returns is
    overwritten at line 125 and never read. *)
Fixpoint read_sheets (sheets : list Sheet) : result (list (list Raw.row)) :=
  match sheets with
  | [] => Ok []
  | sh :: rest =>
    if str_isdigit (sheet_name sh) then
      match int_of_str (sheet_name sh) with
      | Some _ =>
        all_data <- read_sheets rest ;;
        Ok (sheet_rows sh :: all_data)
      | None => Raise (ValueError "invalid literal for int() with base 10")
      end
    else read_sheets rest
  end.

Definition load_generation_data (workbook : option (list Sheet))
  : list Annual.row :=
  match workbook with
  | None => []                      (* the [except] branch *)
  | Some sheets =>
    match read_sheets sheets with
    | Raise _ => []                 (* [except Exception], lines 144-146 *)
    | Ok all_data =>
      match all_data with
      | [] => []                    (* [if all_data:] fails *)
      | _ :: _ =>
        let df := List.concat all_data in
        annual_data df
      end
    end
  end.

(** The time steps the loader keeps: those of the sheets the loop reads,
    none when the loop raises. *)
Definition loaded_rows (workbook : option (list Sheet)) : list Raw.row :=
  match workbook with
  | None => []
  | Some sheets =>
    match read_sheets sheets with
    | Ok all_data => List.concat all_data
    | Raise _ => []
    end
  end.

(** The columns of the annual frame that the scenario function reads. *)
Definition history_of (r : Annual.row) : History.row :=
  History.mk (Annual.Year r) (Annual.Photovoltaics r) (Annual.Wind_Onshore r)
             (Annual.Wind_Offshore r).

(** ** The key metrics of the selected period (lines 245, 328-347) *)

(** A numpy double as a quotient can produce it: dividing by zero gives
    an infinity (its sign is not tracked here) or, for [0/0], [nan]. *)
Inductive npfloat : Type :=
| NFin (q : Q)
| NInf
| NNaN.

Definition np_div (a b : Q) : npfloat :=
  if Qeq_bool b 0 then (if Qeq_bool a 0 then NNaN else NInf)
  else NFin (a / b).

Definition np_times (x : npfloat) (c : Q) : npfloat :=
  match x with
  | NFin q => NFin (q * c)
  | NInf => NInf
  | NNaN => NNaN
  end.

(** Line 245; a frame without rows, as the loader returns it, has no
    'Year' column. *)
Definition year_range (start_year end_year : Z) (generation_df : list Annual.row)
  : view (list Annual.row) :=
  match generation_df with
  | [] => KeyError "Year"
  | _ :: _ =>
    Shown (filter (fun r => (start_year <=? Annual.Year r)%Z
                            && (Annual.Year r <=? end_year)%Z)
                  generation_df)
  end.

Record KeyMetrics : Type := mkKeyMetrics {
  total_gen : Q;
  avg_annual : pyfloat;
  solar_share : npfloat;
  wind_share : npfloat
}.

Definition key_metrics (generation_df_filtered : list Annual.row)
  : option KeyMetrics :=
  match generation_df_filtered with
  | [] => None                      (* "No generation data available" *)
  | _ :: _ =>
    let total_gen :=
      Qsum (map Annual.Total_Generation generation_df_filtered) in
    let avg_annual := mean (map Annual.Total_Generation generation_df_filtered) in
    let solar_share :=
      np_times (np_div (Qsum (map Annual.Photovoltaics generation_df_filtered))
                       total_gen) 100 in
    let wind_share :=
      np_times (np_div (Qsum (map Annual.Wind_Onshore generation_df_filtered)
                        + Qsum (map Annual.Wind_Offshore generation_df_filtered))
                       total_gen) 100 in
    Some (mkKeyMetrics total_gen avg_annual solar_share wind_share)
  end.

(** ** Further notions and sample inputs *)

(** Python's [<=] on doubles: false as soon as one side is [nan]. *)
Definition fle (a b : pyfloat) : Prop :=
  match a, b with
  | Fin x, Fin y => x <= y
  | _, _ => False
  end.

Definition low_target_params : Params := mkParams 0.05 0.05 0.05 0.01 0.30.

Definition df_2025_2027 : DataFrame :=
  [hist 2025 10 10 10; hist 2026 14 14 14; hist 2027 15 15 15].

Definition sheet_2024 : Sheet :=
  mkSheet "2024"
    [Raw.mk 2024 (Fin 1) (Fin 2) (Fin 3); Raw.mk 2024 NaN (Fin 4) (Fin 5);
     Raw.mk 2025 (Fin 10) (Fin 20) (Fin 30)].

Definition sheet_notes : Sheet :=
  mkSheet "Notes" [Raw.mk 1999 (Fin 7) (Fin 7) (Fin 7)].

Definition workbook_sample : option (list Sheet) :=
  Some [sheet_notes; sheet_2024].

Definition workbook_idle : option (list Sheet) :=
  Some [mkSheet "2024" [Raw.mk 2024 NaN (Fin 0) (Fin 0)]].

(** * Properties *)

(** ** Ranges and the projected rows *)

Lemma range_length (lo hi : Z) :
  List.length (range lo hi) = Z.to_nat (hi - lo).
Proof. unfold range. now rewrite length_map, length_seq. Qed.

Lemma range_nth_error (lo hi : Z) (i : nat) :
  (i < Z.to_nat (hi - lo))%nat ->
  nth_error (range lo hi) i = Some (lo + Z.of_nat i)%Z.
Proof.
  intros Hi. unfold range.
  rewrite nth_error_map, nth_error_seq.
  apply Nat.ltb_lt in Hi. now rewrite Hi.
Qed.

Lemma In_range (lo hi y : Z) :
  In y (range lo hi) <-> (lo <= y < hi)%Z.
Proof.
  unfold range. rewrite in_map_iff. split.
  - intros [i [<- Hi]]. apply in_seq in Hi. lia.
  - intros Hy. exists (Z.to_nat (y - lo)). split; [lia|].
    apply in_seq. lia.
Qed.

Lemma scenario_rows_length sc pm base_year bv p :
  List.length (scenario_rows sc pm base_year bv p)
  = Z.to_nat (2050 - base_year).
Proof.
  unfold scenario_rows. rewrite length_map, range_length. f_equal. lia.
Qed.

Lemma scenario_rows_nth_error sc pm base_year bv p (i : nat) r :
  nth_error (scenario_rows sc pm base_year bv p) i = Some r ->
  (Z.of_nat i < 2050 - base_year)%Z /\
  r = scenario_row sc pm base_year bv p (base_year + 1 + Z.of_nat i).
Proof.
  intros H.
  assert (Hi : (i < Z.to_nat (2051 - (base_year + 1)))%nat).
  { assert (Hlt : (i < List.length (scenario_rows sc pm base_year bv p))%nat)
      by (apply nth_error_Some; congruence).
    rewrite scenario_rows_length in Hlt. lia. }
  unfold scenario_rows in H. rewrite nth_error_map in H.
  rewrite (range_nth_error _ _ _ Hi) in H. cbn in H.
  split; [lia | congruence].
Qed.

Lemma In_scenario_rows sc pm base_year bv p r :
  In r (scenario_rows sc pm base_year bv p) <->
  exists y, (base_year < y <= 2050)%Z /\ r = scenario_row sc pm base_year bv p y.
Proof.
  unfold scenario_rows. rewrite in_map_iff. split.
  - intros [y [<- Hy]]. apply In_range in Hy. exists y. split; [lia | easy].
  - intros [y [Hy ->]]. exists y. split; [easy|]. apply In_range. lia.
Qed.

Lemma pymin_Qmin (a b : Q) : pymin a b == Qmin a b.
Proof.
  unfold pymin. destruct (Qlt_le_dec b a) as [H|H].
  - symmetry. apply Q.min_r. now apply Qlt_le_weak.
  - symmetry. apply Q.min_l. exact H.
Qed.

(** The whole function is the three blocks in sequence. *)
Lemma generate_inv sliders df sc pm cp rows base_year bv :
  generate_future_scenarios_enhanced sliders df sc pm cp
    = Ok (rows, base_year, bv) ->
  exists p,
    base_year_and_values df pm = Ok (base_year, bv) /\
    scenario_params sc cp sliders = Ok p /\
    rows = scenario_rows sc pm base_year bv p.
Proof.
  unfold generate_future_scenarios_enhanced, bind.
  destruct (base_year_and_values df pm) as [[y b]|e]; [|discriminate].
  destruct (scenario_params sc cp sliders) as [p|e]; [|discriminate].
  cbn. intros H. inversion H; subst. now exists p.
Qed.

Lemma generate_ok sliders df sc pm cp base_year bv p :
  base_year_and_values df pm = Ok (base_year, bv) ->
  scenario_params sc cp sliders = Ok p ->
  generate_future_scenarios_enhanced sliders df sc pm cp
    = Ok (scenario_rows sc pm base_year bv p, base_year, bv).
Proof.
  intros Hb Hp. unfold generate_future_scenarios_enhanced.
  now rewrite Hb, Hp.
Qed.

(** ** The projection *)

(** C1. Every projected row at year [y], with [t = y - base_year] years
    elapsed, holds each technology's base value times [(1 + rate) ^ t],
    their sum as the renewable total, and as share the percentage
    [100 * min (target, 0.45 + (target - 0.45) * (t / (2050 - base_year)))];
    the share is the same for any other base values and growth rates. *)
Theorem C1_projected_record sc pm base_year bv p r :
  In r (scenario_rows sc pm base_year bv p) ->
  let t := (Scenario.Year r - base_year)%Z in
  let target := renewable_target_2050 p in
  (1 <= t <= horizon_year - base_year)%Z /\
  Scenario.Photovoltaics r
    = fmul (solar_mwh bv) (Fin ((1 + solar_growth p) ^ t)) /\
  Scenario.Wind_Onshore r
    = fmul (wind_onshore_mwh bv) (Fin ((1 + wind_onshore_growth p) ^ t)) /\
  Scenario.Wind_Offshore r
    = fmul (wind_offshore_mwh bv) (Fin ((1 + wind_offshore_growth p) ^ t)) /\
  Scenario.Total_Renewable r
    = fadd (fadd (Scenario.Photovoltaics r) (Scenario.Wind_Onshore r))
           (Scenario.Wind_Offshore r) /\
  Scenario.Renewable_Share r
    == 100 * Qmin target
               (0.45 + (target - 0.45)
                       * (inject_Z t / inject_Z (horizon_year - base_year))) /\
  (forall sc' pm' bv' p' r',
      renewable_target_2050 p' = target ->
      In r' (scenario_rows sc' pm' base_year bv' p') ->
      Scenario.Year r' = Scenario.Year r ->
      Scenario.Renewable_Share r' = Scenario.Renewable_Share r).
Proof.
  intros Hin t target.
  apply In_scenario_rows in Hin. destruct Hin as [y [Hy ->]].
  subst t target. cbn [scenario_row Scenario.Year Scenario.Photovoltaics
    Scenario.Wind_Onshore Scenario.Wind_Offshore Scenario.Total_Renewable
    Scenario.Renewable_Share].
  unfold horizon_year.
  repeat split; try reflexivity; try lia.
  - unfold renewable_share. rewrite pymin_Qmin. ring.
  - intros sc' pm' bv' p' r' Ht Hin' Hyr.
    apply In_scenario_rows in Hin'. destruct Hin' as [y' [_ ->]].
    cbn in Hyr. subst y'. cbn. now rewrite Ht.
Qed.

(** C7. For a base year before 2050 the projection has exactly
    [2050 - base_year] rows, whose years are the consecutive integers
    [base_year + 1], ..., [2050], in strictly ascending order. *)
Theorem C7_projection_years sc pm base_year bv p :
  (base_year < horizon_year)%Z ->
  let rows := scenario_rows sc pm base_year bv p in
  Z.of_nat (List.length rows) = (horizon_year - base_year)%Z /\
  (forall (i : nat) r, nth_error rows i = Some r ->
      Scenario.Year r = (base_year + 1 + Z.of_nat i)%Z) /\
  map Scenario.Year rows = range (base_year + 1) (horizon_year + 1) /\
  (exists r, nth_error rows (Z.to_nat (horizon_year - base_year) - 1) = Some r /\
             Scenario.Year r = horizon_year) /\
  (forall (i j : nat) ri rj, (i < j)%nat ->
      nth_error rows i = Some ri -> nth_error rows j = Some rj ->
      (Scenario.Year ri < Scenario.Year rj)%Z).
Proof.
  intros Hlt rows. subst rows. unfold horizon_year in *.
  split; [rewrite scenario_rows_length; lia|].
  split.
  { intros i r H. apply scenario_rows_nth_error in H.
    destruct H as [_ ->]. reflexivity. }
  split.
  { unfold scenario_rows. rewrite map_map. cbn. now rewrite map_id. }
  split.
  { unfold scenario_rows. rewrite nth_error_map.
    rewrite range_nth_error by lia. cbn [option_map].
    eexists. split; [reflexivity|].
    cbn [scenario_row Scenario.Year].
    rewrite Nat2Z.inj_sub, Z2Nat.id by lia. change (Z.of_nat 1) with 1%Z. lia. }
  intros i j ri rj Hij Hi Hj.
  apply scenario_rows_nth_error in Hi, Hj.
  destruct Hi as [_ ->], Hj as [_ ->]. cbn. lia.
Qed.

(** C9, as the code has it.  When the base year is 2050 or later nothing
    is raised: the year range is empty, the projection is the empty
    sequence, and the function returns it with the baseline. *)
Theorem C9_empty_projection_from_horizon sc pm base_year bv p :
  (horizon_year <= base_year)%Z ->
  scenario_rows sc pm base_year bv p = [] /\
  (forall sliders df cp,
      base_year_and_values df pm = Ok (base_year, bv) ->
      scenario_params sc cp sliders = Ok p ->
      generate_future_scenarios_enhanced sliders df sc pm cp
        = Ok ([], base_year, bv)).
Proof.
  unfold horizon_year. intros Hge.
  assert (Hnil : scenario_rows sc pm base_year bv p = []).
  { apply length_zero_iff_nil. rewrite scenario_rows_length. lia. }
  split; [exact Hnil|].
  intros sliders df cp Hb Hp.
  rewrite (generate_ok _ _ _ _ _ _ _ _ Hb Hp). now rewrite Hnil.
Qed.

(** C10. For the empty frame the function itself substitutes the base
    year 2025 and the default base values, whatever the method, and
    returns the 25 rows of 2026, ..., 2050 projected from them; it raises
    nothing for the three named scenarios, nor for a custom one whose
    parameters are available. *)
Theorem C10_empty_frame_defaults sliders sc pm cp p :
  scenario_params sc cp sliders = Ok p ->
  let rows := scenario_rows sc pm 2025 default_base_values p in
  base_year_and_values [] pm
    = Ok (2025%Z, mkBase (Fin 15000000) (Fin 35000000) (Fin 5000000)) /\
  generate_future_scenarios_enhanced sliders [] sc pm cp
    = Ok (rows, 2025%Z, default_base_values) /\
  List.length rows = 25%nat /\
  map Scenario.Year rows
    = [2026; 2027; 2028; 2029; 2030; 2031; 2032; 2033; 2034; 2035;
       2036; 2037; 2038; 2039; 2040; 2041; 2042; 2043; 2044; 2045;
       2046; 2047; 2048; 2049; 2050]%Z /\
  (forall r, In r rows ->
      Scenario.Photovoltaics r
        = Fin (15000000 * (1 + solar_growth p) ^ (Scenario.Year r - 2025)) /\
      Scenario.Wind_Onshore r
        = Fin (35000000
               * (1 + wind_onshore_growth p) ^ (Scenario.Year r - 2025)) /\
      Scenario.Wind_Offshore r
        = Fin (5000000
               * (1 + wind_offshore_growth p) ^ (Scenario.Year r - 2025))).
Proof.
  intros Hp rows. subst rows.
  split; [reflexivity|].
  split; [now apply generate_ok|].
  split; [now rewrite scenario_rows_length|].
  split.
  { unfold scenario_rows. rewrite map_map. cbn [scenario_row Scenario.Year].
    rewrite map_id. reflexivity. }
  intros r Hin. apply In_scenario_rows in Hin. destruct Hin as [y [_ ->]].
  cbn [scenario_row Scenario.Year Scenario.Photovoltaics
       Scenario.Wind_Onshore Scenario.Wind_Offshore].
  repeat split; reflexivity.
Qed.

(** ** The scenario parameters *)

Lemma scenario_params_named sc cp sliders :
  named_scenario sc = true ->
  raises (scenario_params sc cp sliders) = false.
Proof.
  unfold named_scenario, scenario_params. intros H.
  destruct (String.eqb sc "Conservative"); [reflexivity|].
  destruct (String.eqb sc "Business as Usual"); [reflexivity|].
  destruct (String.eqb sc "Ambitious"); [reflexivity|discriminate].
Qed.

Lemma scenario_params_custom sc cp sliders :
  named_scenario sc = false ->
  scenario_params sc cp sliders =
  match cp, sliders with
  | Some p, _ => Ok p
  | None, Some s => Ok (params_of_sliders s)
  | None, None => Raise (NameError "solar_growth")
  end.
Proof.
  unfold named_scenario, scenario_params. intros H.
  destruct (String.eqb sc "Conservative"); [discriminate|].
  destruct (String.eqb sc "Business as Usual"); [discriminate|].
  destruct (String.eqb sc "Ambitious"); [discriminate|].
  now destruct cp, sliders.
Qed.

(** C5, as the code has it.  No scenario name is refused: every name
    other than the three named scenarios is handled as the custom one.
    A custom scenario takes the caller's parameters when given, else the
    sidebar sliders; it fails exactly when neither exists, with the
    [NameError] of the unbound slider variable. *)
Theorem C5_custom_is_the_default_branch sc cp sliders :
  (named_scenario sc = false ->
     scenario_params sc cp sliders = scenario_params "Custom" cp sliders) /\
  (forall p, cp = Some p -> named_scenario sc = false ->
     scenario_params sc cp sliders = Ok p) /\
  (forall s, cp = None -> sliders = Some s -> named_scenario sc = false ->
     scenario_params sc cp sliders = Ok (params_of_sliders s)) /\
  (raises (scenario_params sc cp sliders) = true <->
     named_scenario sc = false /\ cp = None /\ sliders = None) /\
  (forall e, scenario_params sc cp sliders = Raise e ->
     e = NameError "solar_growth").
Proof.
  split.
  { intros H. rewrite (scenario_params_custom sc cp sliders H).
    now rewrite (scenario_params_custom "Custom" cp sliders eq_refl). }
  split.
  { intros p -> H. now rewrite (scenario_params_custom _ _ _ H). }
  split.
  { intros s -> -> H. now rewrite (scenario_params_custom _ _ _ H). }
  destruct (named_scenario sc) eqn:Hn.
  - pose proof (scenario_params_named sc cp sliders Hn) as Hr.
    split.
    + rewrite Hr. split; [discriminate | intros [? _]; discriminate].
    + intros e He. rewrite He in Hr. discriminate.
  - rewrite (scenario_params_custom sc cp sliders Hn).
    destruct cp as [p|], sliders as [s|]; cbn [raises]; split;
      try discriminate;
      try (split; [discriminate | intros (_ & H1 & H2); discriminate]).
    + split; [intros _; repeat split | reflexivity].
    + intros e He. now inversion He.
Qed.

(** C6, as the code has it.  The three named scenarios resolve to the
    tabulated growth rates and 2050 target.  The custom scenario
    resolves to the parameter set the caller supplies, as it is: growth
    rates and target alike.  The target is 0.90 in the set the dashboard
    builds from the sliders (percent, hence divided by 100) and in the
    function's own fallback when no set is supplied. *)
Theorem C6_scenario_table cp sliders s :
  scenario_params "Conservative" cp sliders
    = Ok (mkParams 0.04 0.02 0.06 0.005 0.70) /\
  scenario_params "Business as Usual" cp sliders
    = Ok (mkParams 0.075 0.04 0.12 0.015 0.85) /\
  scenario_params "Ambitious" cp sliders
    = Ok (mkParams 0.12 0.07 0.18 0.025 0.95) /\
  (forall p, scenario_params "Custom" (Some p) sliders = Ok p) /\
  (exists p,
     scenario_params "Custom" (prepare_custom_params "Custom" (Some s)) sliders
       = Ok p /\
     scenario_params "Custom" None (Some s) = Ok p /\
     solar_growth p = solar_growth_pct s / 100 /\
     wind_onshore_growth p = wind_onshore_growth_pct s / 100 /\
     wind_offshore_growth p = wind_offshore_growth_pct s / 100 /\
     renewable_target_2050 p = 0.90).
Proof.
  repeat split; try reflexivity.
  exists (params_of_sliders s). repeat split.
Qed.

(** ** The base year and base values *)

Lemma fold_max_ge (l : list Z) (a : Z) :
  (a <= fold_left Z.max l a)%Z /\
  (forall y, In y l -> (y <= fold_left Z.max l a)%Z).
Proof.
  revert a. induction l as [|b l IH]; intros a; cbn.
  - split; [lia | intros y []].
  - destruct (IH (Z.max a b)) as [H1 H2]. split; [lia|].
    intros y [<-|Hy]; [lia | now apply H2].
Qed.

Lemma fold_max_in (l : list Z) (a : Z) :
  fold_left Z.max l a = a \/ In (fold_left Z.max l a) l.
Proof.
  revert a. induction l as [|b l IH]; intros a; cbn.
  - now left.
  - destruct (IH (Z.max a b)) as [H|H].
    + rewrite H. destruct (Z.max_spec a b) as [[_ ->]|[_ ->]]; auto.
    + auto.
Qed.

Lemma year_max_ge (df : DataFrame) r :
  In r df -> (History.Year r <= year_max df)%Z.
Proof.
  destruct df as [|r0 rest]; [intros []|].
  cbn [year_max]. pose proof (fold_max_ge (map History.Year rest) (History.Year r0)) as [H1 H2].
  intros [<-|Hin]; [exact H1|].
  apply H2. now apply in_map.
Qed.

Lemma year_max_in (df : DataFrame) :
  df <> [] -> exists r, In r df /\ History.Year r = year_max df.
Proof.
  destruct df as [|r0 rest]; [congruence|]. intros _.
  cbn [year_max].
  destruct (fold_max_in (map History.Year rest) (History.Year r0)) as [H|H].
  - exists r0. split; [now left | now rewrite H].
  - apply in_map_iff in H. destruct H as [r [Hr Hin]].
    exists r. split; [now right | exact Hr].
Qed.

Lemma year_eq_max_nonempty (df : DataFrame) :
  df <> [] -> year_eq (year_max df) df <> [].
Proof.
  intros Hne Hnil. destruct (year_max_in df Hne) as [r [Hin Hr]].
  assert (Hf : In r (year_eq (year_max df) df)).
  { apply filter_In. split; [exact Hin | now apply Z.eqb_eq]. }
  rewrite Hnil in Hf. exact Hf.
Qed.

Lemma NoDup_map_inj {A B : Type} (f : A -> B) (l : list A) (a b : A) :
  NoDup (map f l) -> In a l -> In b l -> f a = f b -> a = b.
Proof.
  induction l as [|c l IH]; cbn; [intros _ []|].
  intros Hnd Ha Hb Hab. inversion Hnd as [|? ? Hnotin Hnd']; subst.
  destruct Ha as [<-|Ha], Hb as [<-|Hb]; auto.
  - exfalso. apply Hnotin. rewrite Hab. now apply in_map.
  - exfalso. apply Hnotin. rewrite <- Hab. now apply in_map.
Qed.

(** C8. With the "last year available" method, a frame with at least one
    row gives as base year the largest year present and as base values
    the three fields, unchanged, of the row of that year (the only such
    row when the years are unique). *)
Theorem C8_latest_year (df : DataFrame) :
  df <> [] ->
  exists r,
    In r df /\
    (forall r', In r' df -> (History.Year r' <= History.Year r)%Z) /\
    base_year_and_values df "Last Year Available (2025)"
      = Ok (History.Year r,
            mkBase (Fin (History.Photovoltaics r))
                   (Fin (History.Wind_Onshore r))
                   (Fin (History.Wind_Offshore r))) /\
    History.Year r = year_max df /\
    (NoDup (map History.Year df) ->
     forall r', In r' df -> History.Year r' = year_max df -> r' = r).
Proof.
  intros Hne.
  pose proof (year_eq_max_nonempty df Hne) as Hf.
  destruct (year_eq (year_max df) df) as [|r rest] eqn:E; [congruence|].
  assert (Hin : In r (year_eq (year_max df) df)) by (rewrite E; now left).
  apply filter_In in Hin. destruct Hin as [Hin Hyr]. apply Z.eqb_eq in Hyr.
  exists r. split; [exact Hin|].
  split; [intros r' Hr'; rewrite Hyr; now apply year_max_ge|].
  split.
  { unfold base_year_and_values. destruct df; [congruence|].
    cbn [empty]. cbn [String.eqb Ascii.eqb Bool.eqb]. rewrite E, Hyr. reflexivity. }
  split; [exact Hyr|].
  intros Hnd r' Hr' Hyr'.
  apply (NoDup_map_inj History.Year df); auto. congruence.
Qed.

(** ** Sums and means of columns *)

Lemma Qlen_cons {A : Type} (a : A) (l : list A) : Qlen (a :: l) == 1 + Qlen l.
Proof.
  unfold Qlen. cbn [List.length]. rewrite Nat2Z.inj_succ, <- Z.add_1_l.
  now rewrite inject_Z_plus.
Qed.

Lemma Qlen_nonneg {A : Type} (l : list A) : 0 <= Qlen l.
Proof.
  unfold Qlen. change 0 with (inject_Z 0). rewrite <- Zle_Qle. lia.
Qed.

Lemma Qlen_pos {A : Type} (l : list A) : l <> [] -> 0 < Qlen l.
Proof.
  destruct l as [|a l]; [congruence|]. intros _.
  rewrite Qlen_cons. pose proof (Qlen_nonneg l). lra.
Qed.

Lemma Qlen_map {A B : Type} (f : A -> B) (l : list A) : Qlen (map f l) = Qlen l.
Proof. unfold Qlen. now rewrite length_map. Qed.

Lemma Qsum_map_ext {A : Type} (f g : A -> Q) (l : list A) :
  (forall a, In a l -> f a == g a) -> Qsum (map f l) == Qsum (map g l).
Proof.
  induction l as [|a l IH]; intros H; [reflexivity|].
  change (f a + Qsum (map f l) == g a + Qsum (map g l)).
  rewrite (H a) by now left. rewrite IH; [reflexivity|].
  intros b Hb. apply H. now right.
Qed.

Lemma Qsum_map_nonneg {A : Type} (f : A -> Q) (l : list A) :
  (forall a, In a l -> 0 <= f a) -> 0 <= Qsum (map f l).
Proof.
  induction l as [|a l IH]; intros H.
  - cbn. lra.
  - change (0 <= f a + Qsum (map f l)).
    assert (0 <= f a) by (apply H; now left).
    assert (0 <= Qsum (map f l))
      by (apply IH; intros b Hb; apply H; now right).
    lra.
Qed.

Lemma Qsum_map_zero {A : Type} (f : A -> Q) (l : list A) :
  (forall a, In a l -> 0 <= f a) -> Qsum (map f l) == 0 ->
  forall a, In a l -> f a == 0.
Proof.
  induction l as [|a l IH]; intros Hpos Hsum b Hb; [destruct Hb|].
  change (f a + Qsum (map f l) == 0) in Hsum.
  assert (Ha : 0 <= f a) by (apply Hpos; now left).
  assert (Hl : 0 <= Qsum (map f l))
    by (apply Qsum_map_nonneg; intros c Hc; apply Hpos; now right).
  destruct Hb as [<-|Hb]; [lra|].
  apply IH; auto; [intros c Hc; apply Hpos; now right | lra].
Qed.

(** The mean of a non-empty column is the value whose product with the
    number of entries is their sum. *)
Lemma mean_spec (col : list Q) :
  col <> [] ->
  exists m, mean col = Fin m /\ m * Qlen col == Qsum col.
Proof.
  intros Hne. pose proof (Qlen_pos col Hne) as Hpos.
  destruct col as [|c col]; [congruence|].
  exists (Qsum (c :: col) / Qlen (c :: col)). split; [reflexivity|].
  field. lra.
Qed.

(** ** Least squares *)

Section Quadratic.

Variable pts : list (Q * Q).

Let n := Qlen pts.
Let Sx := Qsum (map fst pts).
Let Sy := Qsum (map snd pts).
Let Sxx := Qsum (map (fun p => fst p * fst p) pts).
Let Sxy := Qsum (map (fun p => fst p * snd p) pts).
Let Syy := Qsum (map (fun p => snd p * snd p) pts).

(** The sum over the points of a quadratic polynomial in the two
    coordinates, in terms of the six moments. *)
Lemma Qsum_quadratic (f : Q * Q -> Q) (c0 c1 c2 c3 c4 c5 : Q) :
  (forall p, In p pts ->
     f p == c0 + c1 * fst p + c2 * snd p + c3 * (fst p * fst p)
            + c4 * (fst p * snd p) + c5 * (snd p * snd p)) ->
  Qsum (map f pts)
  == c0 * n + c1 * Sx + c2 * Sy + c3 * Sxx + c4 * Sxy + c5 * Syy.
Proof.
  subst n Sx Sy Sxx Sxy Syy.
  induction pts as [|p l IH]; intros H.
  - cbn. unfold Qlen. cbn. ring.
  - change (Qsum (map f (p :: l))) with (f p + Qsum (map f l)).
    rewrite (H p) by now left.
    rewrite IH by (intros q Hq; apply H; now right).
    rewrite Qlen_cons. cbn [map]. unfold Qsum. cbn [fold_right]. ring.
Qed.

End Quadratic.

Lemma least_squares_algebra (n Sx Sy Sxx Sxy Syy xm ym vxx vxy a b a' b' : Q) :
  ~ n == 0 ->
  xm == Sx / n ->
  ym == Sy / n ->
  vxx == (xm * xm * n - 2 * xm * Sx + Sxx) / n ->
  vxy == (xm * ym * n - ym * Sx - xm * Sy + Sxy) / n ->
  ~ vxx == 0 ->
  a == vxy / vxx ->
  b == ym - a * xm ->
  (b' * b' * n + 2 * a' * b' * Sx - 2 * b' * Sy
   + a' * a' * Sxx - 2 * a' * Sxy + Syy)
  - (b * b * n + 2 * a * b * Sx - 2 * b * Sy
     + a * a * Sxx - 2 * a * Sxy + Syy)
  == (b' - b) * (b' - b) * n + 2 * (a' - a) * (b' - b) * Sx
     + (a' - a) * (a' - a) * Sxx.
Proof.
  intros Hn Hxm Hym Hvxx Hvxy Hnz Ha Hb.
  rewrite Hb, Ha, Hvxy. rewrite Hvxx in *. rewrite Hym, Hxm in *.
  field. split; [exact Hn|].
  intros H. apply Hnz.
  transitivity ((Sx * Sx - 2 * Sx * Sx + Sxx * n) / (n * n)).
  - field. exact Hn.
  - rewrite H. field. exact Hn.
Qed.

Lemma Qsquare_ge0 (q : Q) : 0 <= q * q.
Proof. nra. Qed.

Lemma combine_fst_snd {A B : Type} (pts : list (A * B)) :
  combine (map fst pts) (map snd pts) = pts.
Proof.
  induction pts as [|[a b] l IH]; cbn; [reflexivity | now rewrite IH].
Qed.

Lemma sse_moments (pts : list (Q * Q)) (a b : Q) :
  sse pts a b
  == b * b * Qlen pts + 2 * a * b * Qsum (map fst pts)
     - 2 * b * Qsum (map snd pts)
     + a * a * Qsum (map (fun p => fst p * fst p) pts)
     - 2 * a * Qsum (map (fun p => fst p * snd p) pts)
     + Qsum (map (fun p => snd p * snd p) pts).
Proof.
  unfold sse.
  rewrite (Qsum_quadratic pts _ (b * b) (2 * a * b) (- (2 * b)) (a * a)
             (- (2 * a)) 1) by (intros p _; ring).
  ring.
Qed.

Lemma ssxm_moments (pts : list (Q * Q)) :
  let xm := qmean (map fst pts) in
  ssxm (map fst pts)
  == (xm * xm * Qlen pts - 2 * xm * Qsum (map fst pts)
      + Qsum (map (fun p => fst p * fst p) pts)) / Qlen pts.
Proof.
  intros xm. unfold ssxm, qmean at 1. fold xm.
  rewrite map_map, !Qlen_map.
  rewrite (Qsum_quadratic pts _ (xm * xm) (- (2 * xm)) 0 1 0 0)
    by (intros p _; ring).
  apply Qdiv_comp; [ring | reflexivity].
Qed.

Lemma ssxym_moments (pts : list (Q * Q)) :
  let xm := qmean (map fst pts) in
  let ym := qmean (map snd pts) in
  ssxym (map fst pts) (map snd pts)
  == (xm * ym * Qlen pts - ym * Qsum (map fst pts)
      - xm * Qsum (map snd pts)
      + Qsum (map (fun p => fst p * snd p) pts)) / Qlen pts.
Proof.
  intros xm ym. unfold ssxym, qmean at 1. fold xm ym.
  rewrite combine_fst_snd, !Qlen_map.
  rewrite (Qsum_quadratic pts _ (xm * ym) (- ym) (- xm) 0 1 0)
    by (intros p _; ring).
  apply Qdiv_comp; [ring | reflexivity].
Qed.

(** What [linregress] returns when it returns finite numbers. *)
Lemma linregress_finite_inv (x y : list Q) (sl ic : Q) :
  linregress x y = Ok (Fin sl, Fin ic) ->
  x <> [] /\ ~ ssxm x == 0 /\
  sl = ssxym x y / ssxm x /\ ic = qmean y - sl * qmean x.
Proof.
  unfold linregress.
  destruct x as [|x0 x]; [destruct lib; discriminate|].
  destruct y as [|y0 y]; [destruct lib; discriminate|].
  destruct (Qeq_bool (amax (x0 :: x)) (amin (x0 :: x)) && _); [discriminate|].
  destruct (Qeq_bool (ssxm (x0 :: x)) 0) eqn:E; [discriminate|].
  cbn [fsub fmul]. intros H. inversion H; subst.
  split; [discriminate|]. split; [now apply Qeq_bool_neq|]. split; reflexivity.
Qed.

(** The squared distance between two lines, summed over the points. *)
Lemma linregress_sse_gap (pts : list (Q * Q)) (sl ic : Q) :
  linregress (map fst pts) (map snd pts) = Ok (Fin sl, Fin ic) ->
  forall a' b',
    sse pts a' b'
    == sse pts sl ic
       + Qsum (map (fun p => ((a' - sl) * fst p + (b' - ic))
                             * ((a' - sl) * fst p + (b' - ic))) pts).
Proof.
  intros H a' b'.
  apply linregress_finite_inv in H. destruct H as (Hne & Hnz & Hsl & Hic).
  assert (Hn : ~ Qlen pts == 0).
  { assert (0 < Qlen (map fst pts)) by now apply Qlen_pos.
    rewrite Qlen_map in *. lra. }
  pose proof (least_squares_algebra
    (Qlen pts) (Qsum (map fst pts)) (Qsum (map snd pts))
    (Qsum (map (fun p => fst p * fst p) pts))
    (Qsum (map (fun p => fst p * snd p) pts))
    (Qsum (map (fun p => snd p * snd p) pts))
    (qmean (map fst pts)) (qmean (map snd pts))
    (ssxm (map fst pts)) (ssxym (map fst pts) (map snd pts))
    sl ic a' b' Hn) as Halg.
  assert (Hdiff := Halg
    ltac:(unfold qmean; now rewrite Qlen_map)
    ltac:(unfold qmean; now rewrite Qlen_map)
    (ssxm_moments pts) (ssxym_moments pts) Hnz
    ltac:(rewrite Hsl; reflexivity) ltac:(rewrite Hic; reflexivity)).
  clear Halg.
  pose proof (sse_moments pts a' b') as E1.
  pose proof (sse_moments pts sl ic) as E2.
  rewrite (Qsum_quadratic pts _ ((b' - ic) * (b' - ic))
             (2 * (a' - sl) * (b' - ic)) 0 ((a' - sl) * (a' - sl)) 0 0)
    by (intros p _; ring).
  lra.
Qed.

(** The line returned by [linregress] minimises the sum of squared
    residuals: it is the ordinary least-squares fit. *)
Lemma linregress_least_squares (pts : list (Q * Q)) (sl ic : Q) :
  linregress (map fst pts) (map snd pts) = Ok (Fin sl, Fin ic) ->
  least_squares pts sl ic.
Proof.
  intros H a' b'. rewrite (linregress_sse_gap pts sl ic H a' b').
  assert (Hsq : 0 <= Qsum (map (fun p =>
            ((a' - sl) * fst p + (b' - ic)) * ((a' - sl) * fst p + (b' - ic)))
            pts)).
  { apply Qsum_map_nonneg. intros p _. apply Qsquare_ge0. }
  lra.
Qed.

(** With two different abscissas no other line does as well. *)
Lemma linregress_least_squares_unique (pts : list (Q * Q)) (sl ic a b : Q)
    (p1 p2 : Q * Q) :
  linregress (map fst pts) (map snd pts) = Ok (Fin sl, Fin ic) ->
  In p1 pts -> In p2 pts -> ~ fst p1 == fst p2 ->
  least_squares pts a b ->
  a == sl /\ b == ic.
Proof.
  intros H H1 H2 Hneq Hls.
  pose proof (linregress_sse_gap pts sl ic H a b) as Hgap.
  pose proof (Hls sl ic) as Hle.
  set (d := fun p : Q * Q =>
              ((a - sl) * fst p + (b - ic)) * ((a - sl) * fst p + (b - ic))).
  fold d in Hgap.
  assert (Hpos : forall p, In p pts -> 0 <= d p)
    by (intros p _; apply Qsquare_ge0).
  assert (Hz : Qsum (map d pts) == 0).
  { pose proof (Qsum_map_nonneg d pts Hpos). lra. }
  pose proof (Qsum_map_zero d pts Hpos Hz) as Hall.
  assert (Hd : forall p, In p pts -> (a - sl) * fst p + (b - ic) == 0).
  { intros p Hp. specialize (Hall p Hp). unfold d in Hall.
    apply Qmult_integral in Hall. now destruct Hall. }
  pose proof (Hd p1 H1) as E1. pose proof (Hd p2 H2) as E2.
  assert (Ha : (a - sl) * (fst p1 - fst p2) == 0) by lra.
  apply Qmult_integral in Ha. destruct Ha as [Ha|Ha]; [|exfalso; lra].
  split; [lra|]. rewrite Ha in E1. lra.
Qed.

(** ** When [linregress] answers *)

Lemma fold_amax_bounds (l : list Q) (a : Q) :
  let m := fold_left (fun m v => if Qlt_le_dec m v then v else m) l a in
  a <= m /\ (forall v, In v l -> v <= m).
Proof.
  revert a. induction l as [|b l IH]; intros a; cbn.
  - split; [lra | intros v []].
  - destruct (IH (if Qlt_le_dec a b then b else a)) as [H1 H2].
    destruct (Qlt_le_dec a b).
    + split; [lra|]. intros v [<-|Hv]; [exact H1 | now apply H2].
    + split; [lra|]. intros v [<-|Hv]; [lra | now apply H2].
Qed.

Lemma fold_amin_bounds (l : list Q) (a : Q) :
  let m := fold_left (fun m v => if Qlt_le_dec v m then v else m) l a in
  m <= a /\ (forall v, In v l -> m <= v).
Proof.
  revert a. induction l as [|b l IH]; intros a; cbn.
  - split; [lra | intros v []].
  - destruct (IH (if Qlt_le_dec b a then b else a)) as [H1 H2].
    destruct (Qlt_le_dec b a).
    + split; [lra|]. intros v [<-|Hv]; [exact H1 | now apply H2].
    + split; [lra|]. intros v [<-|Hv]; [lra | now apply H2].
Qed.

Lemma amin_amax_bounds (x : list Q) (v : Q) :
  In v x -> amin x <= v <= amax x.
Proof.
  destruct x as [|a l]; [intros []|]. cbn [amin amax].
  pose proof (fold_amax_bounds l a) as [M1 M2].
  pose proof (fold_amin_bounds l a) as [m1 m2].
  intros [<-|Hv]; split; auto.
Qed.



Lemma ssxm_zero_all_mean (x : list Q) :
  x <> [] -> ssxm x == 0 -> forall v, In v x -> v == qmean x.
Proof.
  intros Hne Hz v Hv.
  pose proof (Qlen_pos x Hne) as Hpos.
  unfold ssxm, qmean at 1 in Hz. rewrite Qlen_map in Hz.
  assert (Hs : Qsum (map (fun xi => (xi - qmean x) * (xi - qmean x)) x) == 0).
  { setoid_replace (Qsum (map (fun xi => (xi - qmean x) * (xi - qmean x)) x))
      with (Qsum (map (fun xi => (xi - qmean x) * (xi - qmean x)) x)
            / Qlen x * Qlen x) by (field; lra).
    rewrite Hz. ring. }
  pose proof (Qsum_map_zero _ x (fun a _ => Qsquare_ge0 (a - qmean x)) Hs v Hv)
    as Hsq.
  cbv beta in Hsq.
  destruct (Qeq_dec v (qmean x)) as [E|E]; [exact E|].
  exfalso. apply Qmult_integral in Hsq. destruct Hsq; apply E; lra.
Qed.

(** Two different abscissas are enough for a finite slope and intercept. *)
Lemma linregress_defined (x y : list Q) (x1 x2 : Q) :
  In x1 x -> In x2 x -> ~ x1 == x2 -> y <> [] ->
  exists sl ic, linregress x y = Ok (Fin sl, Fin ic).
Proof.
  intros H1 H2 Hneq Hy.
  assert (Hx : x <> []) by (destruct x; [destruct H1 | discriminate]).
  unfold linregress.
  destruct x as [|x0 x']; [congruence|]. destruct y as [|y0 y']; [congruence|].
  remember (x0 :: x') as x eqn:Ex. remember (y0 :: y') as y eqn:Ey.
  assert (Hm : Qeq_bool (amax x) (amin x) = false).
  { destruct (Qeq_bool (amax x) (amin x)) eqn:E; [|reflexivity].
    apply Qeq_bool_eq in E. exfalso. apply Hneq.
    pose proof (amin_amax_bounds x x1 H1). pose proof (amin_amax_bounds x x2 H2).
    lra. }
  rewrite Hm. cbn [andb].
  assert (Hv : Qeq_bool (ssxm x) 0 = false).
  { destruct (Qeq_bool (ssxm x) 0) eqn:E; [|reflexivity].
    apply Qeq_bool_eq in E. exfalso. apply Hneq.
    rewrite (ssxm_zero_all_mean x Hx E x1 H1).
    now rewrite (ssxm_zero_all_mean x Hx E x2 H2). }
  rewrite Hv. cbn [fsub fmul]. eauto.
Qed.


(** ** Trend baselines *)

Lemma points_fst tech w :
  map fst (points tech w) = map (fun r => inject_Z (History.Year r)) w.
Proof. unfold points. now rewrite map_map. Qed.

Lemma points_snd tech w : map snd (points tech w) = map tech w.
Proof. unfold points. now rewrite map_map. Qed.

Lemma trend_value_ols w tech year :
  two_years w ->
  exists v, trend_value w tech year = Ok v /\ ols_at w tech year v.
Proof.
  intros (r1 & r2 & H1 & H2 & Hneq).
  destruct (linregress_defined
              (map (fun r => inject_Z (History.Year r)) w) (map tech w)
              (inject_Z (History.Year r1)) (inject_Z (History.Year r2)))
    as (sl & ic & Hfit).
  - now apply (in_map (fun r => inject_Z (History.Year r))).
  - now apply (in_map (fun r => inject_Z (History.Year r))).
  - intros E. apply Hneq. now apply inject_Z_injective.
  - destruct w; [destruct H1 | discriminate].
  - assert (Hpts : linregress (map fst (points tech w)) (map snd (points tech w))
                   = Ok (Fin sl, Fin ic))
      by now rewrite points_fst, points_snd.
    exists (Fin (sl * inject_Z year + ic)). split.
    + unfold trend_value. now rewrite Hfit.
    + exists sl, ic. split; [now apply linregress_least_squares|].
      split; [|reflexivity].
      intros a' b'.
      apply (linregress_least_squares_unique (points tech w) sl ic a' b'
               (inject_Z (History.Year r1), tech r1)
               (inject_Z (History.Year r2), tech r2) Hpts).
      * unfold points.
        now apply (in_map (fun r => (inject_Z (History.Year r), tech r))).
      * unfold points.
        now apply (in_map (fun r => (inject_Z (History.Year r), tech r))).
      * cbn [fst]. intros E. apply Hneq. now apply inject_Z_injective.
Qed.

Lemma trend_values_ols w year :
  two_years w ->
  exists pv won woff,
    trend_values w year = Ok (mkBase pv won woff) /\
    ols_at w History.Photovoltaics year pv /\
    ols_at w History.Wind_Onshore year won /\
    ols_at w History.Wind_Offshore year woff.
Proof.
  intros H.
  destruct (trend_value_ols w History.Photovoltaics year H) as (pv & E1 & O1).
  destruct (trend_value_ols w History.Wind_Onshore year H) as (won & E2 & O2).
  destruct (trend_value_ols w History.Wind_Offshore year H) as (woff & E3 & O3).
  exists pv, won, woff. unfold trend_values. rewrite E1, E2, E3. now cbn.
Qed.

Lemma year_ge_nonempty y df : year_ge y df <> [] -> df <> [].
Proof. intros H E. apply H. now rewrite E. Qed.

Lemma base_year_and_values_trend df pm :
  pm = "5-Year Trend (2021-2025)" \/ pm = "Full Historical Trend (2015-2025)" ->
  df <> [] ->
  base_year_and_values df pm
  = (bv <- trend_values (trend_window pm df) 2025 ;; Ok (2025%Z, bv)).
Proof.
  intros [-> | ->] Hne; (destruct df; [congruence|]); reflexivity.
Qed.

(** On a window with two different years a trend method returns, for
    each technology, the value at 2025 of the line that minimises the
    squared residuals of that column on the year, and of no other. *)
Lemma trend_baseline_least_squares (df : DataFrame) (pm : string) :
  pm = "5-Year Trend (2021-2025)" \/ pm = "Full Historical Trend (2015-2025)" ->
  two_years (trend_window pm df) ->
  exists pv won woff,
    base_year_and_values df pm = Ok (2025%Z, mkBase pv won woff) /\
    ols_at (trend_window pm df) History.Photovoltaics 2025 pv /\
    ols_at (trend_window pm df) History.Wind_Onshore 2025 won /\
    ols_at (trend_window pm df) History.Wind_Offshore 2025 woff.
Proof.
  intros Hpm Htwo.
  assert (Hne : df <> []).
  { destruct Htwo as (r1 & _ & H1 & _). intros ->.
    unfold trend_window in H1. destruct (String.eqb _ _); destruct H1. }
  rewrite (base_year_and_values_trend df pm Hpm Hne).
  destruct (trend_values_ols _ 2025 Htwo) as (pv & won & woff & E & O).
  exists pv, won, woff. now rewrite E.
Qed.

(** The code and the specification's words give the same trend baseline
    on every history whose latest year is 2025. *)
Lemma trend_matches_spec_in_2025 (df : DataFrame) (pm : string) :
  pm = "5-Year Trend (2021-2025)" \/ pm = "Full Historical Trend (2015-2025)" ->
  df <> [] -> year_max df = 2025%Z ->
  base_year_and_values df pm = spec_trend df pm.
Proof.
  intros Hpm Hne Hmax. rewrite (base_year_and_values_trend df pm Hpm Hne).
  unfold spec_trend, spec_trend_window, trend_window. rewrite Hmax.
  destruct Hpm as [-> | ->]; reflexivity.
Qed.

(** C3 does not hold of the code: a defect of lines 775-806.  For the
    history [(2025, 10); (2026, 14)] the claim gives the base year 2026
    and the value 14 of the fitted line there, and so does the sibling
    method "Last Year Available", which takes [Year.max()].  Both trend
    methods set [base_year = 2025] whatever the frame holds (and the
    5-year window is the literal [Year >= 2021]): they fit the row of
    2026, read the line at 2025 and return the value 10.  On the
    claim's own example [(2024, 10); (2025, 14)], whose latest year is
    2025, the code returns 14 as claimed. *)
Theorem C3_hardcoded_base_year :
  year_max df_2025_2026 = 2026%Z /\
  (forall pm,
     pm = "5-Year Trend (2021-2025)" \/
     pm = "Full Historical Trend (2015-2025)" ->
     (exists bv,
        base_year_and_values df_2025_2026 pm = Ok (2025%Z, bv) /\
        feq (solar_mwh bv) (Fin 10) /\ feq (wind_onshore_mwh bv) (Fin 10) /\
        feq (wind_offshore_mwh bv) (Fin 10)) /\
     (exists bv,
        spec_trend df_2025_2026 pm = Ok (2026%Z, bv) /\
        feq (solar_mwh bv) (Fin 14) /\ feq (wind_onshore_mwh bv) (Fin 14) /\
        feq (wind_offshore_mwh bv) (Fin 14))) /\
  (exists bv,
     base_year_and_values df_2025_2026 "Last Year Available (2025)"
       = Ok (2026%Z, bv)) /\
  ~ 10 == 14 /\
  (exists bv,
     base_year_and_values df_2024_2025 "5-Year Trend (2021-2025)"
       = Ok (2025%Z, bv) /\
     spec_trend df_2024_2025 "5-Year Trend (2021-2025)" = Ok (2025%Z, bv) /\
     feq (solar_mwh bv) (Fin 14) /\ feq (wind_onshore_mwh bv) (Fin 14) /\
     feq (wind_offshore_mwh bv) (Fin 14)).
Proof.
  split; [reflexivity|]. split; [|split; [|split]].
  - intros pm [-> | ->]; split; eexists;
      (split; [reflexivity|]); cbn; repeat split; reflexivity.
  - eexists. reflexivity.
  - discriminate.
  - eexists. split; [reflexivity|]. split; [reflexivity|].
    cbn. repeat split; reflexivity.
Qed.

(** ** The 3-year average *)

(** The code and the specification's words give the same 3-year average
    on every history whose latest year is 2025. *)
Lemma average_matches_spec_in_2025 (df : DataFrame) :
  year_max df = 2025%Z ->
  base_year_and_values df "3-Year Average (2023-2025)"
  = Ok (spec_recent_average df).
Proof.
  intros Hmax. destruct df as [|r df]; [discriminate Hmax|].
  unfold base_year_and_values, spec_recent_average.
  cbn [empty String.eqb Ascii.eqb Bool.eqb]. now rewrite Hmax.
Qed.

(** C2 does not hold of the code: a defect of lines 769-773.  For the
    history of the years 2023 to 2027 with the values 10, 20, 30, 40, 50
    the claim gives the base year 2027 and the mean 40 of the rows of
    2025 to 2027, and the sibling method "Last Year Available" does take
    the latest year 2027.  The 3-year average filters [Year >= 2023]
    and sets [base_year = 2025] (under the comment "Use latest year as
    reference"): it returns the base year 2025 and the mean 30 of all
    five rows. *)
Theorem C2_hardcoded_window :
  year_max df_2023_2027 = 2027%Z /\
  spec_recent_average df_2023_2027
  = (2027%Z, mkBase (Fin (120 / 3)) (Fin (120 / 3)) (Fin (120 / 3))) /\
  base_year_and_values df_2023_2027 "3-Year Average (2023-2025)"
  = Ok (2025%Z, mkBase (Fin (150 / 5)) (Fin (150 / 5)) (Fin (150 / 5))) /\
  List.length (year_ge 2023 df_2023_2027) = 5%nat /\
  (exists bv,
     base_year_and_values df_2023_2027 "Last Year Available (2025)"
       = Ok (2027%Z, bv)) /\
  ~ 150 / 5 == 120 / 3.
Proof.
  repeat split; try reflexivity.
  - eexists. reflexivity.
  - discriminate.
Qed.

(** ** No data *)

(** A trend window without rows under a frame that has some: what the
    function does is what the installed SciPy does with no points. *)
Lemma empty_trend_window (df : DataFrame) :
  df <> [] -> year_ge 2021 df = [] ->
  base_year_and_values df "5-Year Trend (2021-2025)"
  = match lib with
    | RaisesOnEmpty => Raise (ValueError "Inputs must not be empty.")
    | NanOnEmpty => Ok (2025%Z, mkBase NaN NaN NaN)
    end.
Proof.
  intros Hne Hw. destruct df; [congruence|].
  unfold base_year_and_values. cbn [empty String.eqb Ascii.eqb Bool.eqb].
  rewrite Hw. unfold trend_values, trend_value, linregress. cbn [map].
  destruct lib; reflexivity.
Qed.


(** * Further properties of the projection *)

(** ** The share trajectory *)

Lemma inject_Z_pos (z : Z) : (0 < z)%Z -> 0 < inject_Z z.
Proof. intros H. change 0 with (inject_Z 0). now rewrite <- Zlt_Qlt. Qed.

Lemma elapsed_fraction_bounds (base_year year : Z) :
  (base_year < year <= 2050)%Z ->
  0 < inject_Z (year - base_year) / inject_Z (2050 - base_year) <= 1.
Proof.
  intros H.
  assert (HT : 0 < inject_Z (2050 - base_year)) by (apply inject_Z_pos; lia).
  assert (Ht : 0 < inject_Z (year - base_year)) by (apply inject_Z_pos; lia).
  assert (Hle : inject_Z (year - base_year) <= inject_Z (2050 - base_year))
    by (rewrite <- Zle_Qle; lia).
  split.
  - apply Qlt_shift_div_l; [exact HT | lra].
  - apply Qle_shift_div_r; [exact HT | lra].
Qed.

Lemma elapsed_fraction_lt (base_year y1 y2 : Z) :
  (base_year < 2050)%Z -> (y1 < y2)%Z ->
  inject_Z (y1 - base_year) / inject_Z (2050 - base_year)
  < inject_Z (y2 - base_year) / inject_Z (2050 - base_year).
Proof.
  intros Hb H.
  assert (HT : 0 < inject_Z (2050 - base_year)) by (apply inject_Z_pos; lia).
  assert (Hlt : inject_Z (y1 - base_year) < inject_Z (y2 - base_year))
    by (rewrite <- Zlt_Qlt; lia).
  apply Qlt_shift_div_l; [exact HT|].
  setoid_replace (inject_Z (y1 - base_year) / inject_Z (2050 - base_year)
                  * inject_Z (2050 - base_year))
    with (inject_Z (y1 - base_year)) by (field; lra).
  exact Hlt.
Qed.

Lemma renewable_share_unfold (target : Q) (base_year year : Z) :
  renewable_share target base_year year
  = pymin target (share_ramp target base_year year).
Proof. reflexivity. Qed.

Lemma share_ramp_le_target (target : Q) (base_year year : Z) :
  0.45 <= target -> (base_year < year <= 2050)%Z ->
  0.45 <= share_ramp target base_year year <= target.
Proof.
  intros Ht Hy. unfold share_ramp.
  pose proof (elapsed_fraction_bounds base_year year Hy) as [H0 H1].
  set (u := inject_Z (year - base_year) / inject_Z (2050 - base_year)) in *.
  split; nra.
Qed.

Lemma renewable_share_above_floor (target : Q) (base_year year : Z) :
  0.45 <= target -> (base_year < year <= 2050)%Z ->
  renewable_share target base_year year == share_ramp target base_year year.
Proof.
  intros Ht Hy. rewrite renewable_share_unfold. unfold pymin.
  pose proof (share_ramp_le_target target base_year year Ht Hy) as [_ Hle].
  destruct (Qlt_le_dec (share_ramp target base_year year) target);
    [reflexivity | lra].
Qed.

Lemma renewable_share_below_floor (target : Q) (base_year year : Z) :
  target < 0.45 -> (base_year < year <= 2050)%Z ->
  renewable_share target base_year year = target.
Proof.
  intros Ht Hy. rewrite renewable_share_unfold. unfold pymin.
  destruct (Qlt_le_dec (share_ramp target base_year year) target) as [Hlt|];
    [|reflexivity].
  exfalso. unfold share_ramp in Hlt.
  pose proof (elapsed_fraction_bounds base_year year Hy) as [H0 H1].
  set (u := inject_Z (year - base_year) / inject_Z (2050 - base_year)) in *.
  nra.
Qed.

Lemma renewable_share_2050 (target : Q) (base_year : Z) :
  (base_year < 2050)%Z ->
  renewable_share target base_year 2050 == target.
Proof.
  intros Hb. rewrite renewable_share_unfold. unfold pymin.
  assert (HT : 0 < inject_Z (2050 - base_year)) by (apply inject_Z_pos; lia).
  assert (E : share_ramp target base_year 2050 == target)
    by (unfold share_ramp; field; lra).
  destruct (Qlt_le_dec (share_ramp target base_year 2050) target);
    [exact E | reflexivity].
Qed.

Lemma renewable_share_le_target (target : Q) (base_year year : Z) :
  renewable_share target base_year year <= target.
Proof.
  rewrite renewable_share_unfold. unfold pymin.
  destruct (Qlt_le_dec (share_ramp target base_year year) target); lra.
Qed.

(** X1. Whatever the target, the base values and the growth rates, a
    projection that starts before 2050 has a row of 2050, and the share
    of no row exceeds the target percentage. *)
Theorem share_never_exceeds_target sc pm base_year bv p :
  (base_year < 2050)%Z ->
  let rows := scenario_rows sc pm base_year bv p in
  (exists r, In r rows /\ Scenario.Year r = 2050%Z) /\
  (forall r, In r rows ->
     Scenario.Renewable_Share r <= renewable_target_2050 p * 100).
Proof.
  intros Hb rows. subst rows. split.
  - exists (scenario_row sc pm base_year bv p 2050). split; [|reflexivity].
    apply In_scenario_rows. exists 2050%Z. split; [lia | reflexivity].
  - intros r Hin. apply In_scenario_rows in Hin.
    destruct Hin as (y & _ & ->).
    cbn [scenario_row Scenario.Renewable_Share].
    pose proof (renewable_share_le_target (renewable_target_2050 p) base_year y).
    lra.
Qed.

(** X2. With a target of at least 45% the cap never cuts: every row's
    share is the straight line from 45% at the base year to the target
    in 2050, and lies between 45 and the target percentage. *)
Theorem share_is_the_ramp sc pm base_year bv p r :
  0.45 <= renewable_target_2050 p ->
  In r (scenario_rows sc pm base_year bv p) ->
  Scenario.Renewable_Share r
    == 100 * share_ramp (renewable_target_2050 p) base_year (Scenario.Year r) /\
  45 <= Scenario.Renewable_Share r <= 100 * renewable_target_2050 p.
Proof.
  intros Ht Hin. apply In_scenario_rows in Hin. destruct Hin as (y & Hy & ->).
  cbn [scenario_row Scenario.Renewable_Share Scenario.Year].
  pose proof (renewable_share_above_floor _ base_year y Ht Hy) as E.
  pose proof (share_ramp_le_target _ base_year y Ht Hy) as [H1 H2].
  rewrite E. split; [ring | lra].
Qed.

(** X3. With a target below 45% the 45% floor never shows: in every
    year before 2050 the cap cuts the line that comes down from 45%, and
    the share of the row is the target itself. *)
Theorem share_flat_before_2050 sc pm base_year bv p r :
  renewable_target_2050 p < 0.45 ->
  In r (scenario_rows sc pm base_year bv p) ->
  (Scenario.Year r < 2050)%Z ->
  Scenario.Renewable_Share r = renewable_target_2050 p * 100.
Proof.
  intros Ht Hin Hlt. apply In_scenario_rows in Hin. destruct Hin as (y & Hy & ->).
  cbn [scenario_row Scenario.Renewable_Share].
  now rewrite (renewable_share_below_floor _ base_year y Ht Hy).
Qed.

(** X4. With a target of at least 45% the share never falls from one
    year to a later one. *)
Theorem share_never_decreases sc pm base_year bv p r1 r2 :
  0.45 <= renewable_target_2050 p ->
  In r1 (scenario_rows sc pm base_year bv p) ->
  In r2 (scenario_rows sc pm base_year bv p) ->
  (Scenario.Year r1 <= Scenario.Year r2)%Z ->
  Scenario.Renewable_Share r1 <= Scenario.Renewable_Share r2.
Proof.
  intros Ht H1 H2 Hle.
  apply In_scenario_rows in H1, H2.
  destruct H1 as (y1 & Hy1 & ->), H2 as (y2 & Hy2 & ->).
  cbn [scenario_row Scenario.Renewable_Share Scenario.Year] in *.
  rewrite !renewable_share_above_floor by (lra || lia).
  unfold share_ramp.
  assert (HT : 0 < inject_Z (2050 - base_year)) by (apply inject_Z_pos; lia).
  assert (Hu : inject_Z (y1 - base_year) / inject_Z (2050 - base_year)
               <= inject_Z (y2 - base_year) / inject_Z (2050 - base_year)).
  { apply Qmult_le_compat_r.
    - rewrite <- Zle_Qle. lia.
    - apply Qlt_le_weak. now apply Qinv_lt_0_compat. }
  set (u1 := inject_Z (y1 - base_year) / inject_Z (2050 - base_year)) in *.
  set (u2 := inject_Z (y2 - base_year) / inject_Z (2050 - base_year)) in *.
  nra.
Qed.

(** ** Growth *)

Lemma growth_factor_monotone (g : Q) (t1 t2 : Z) :
  0 <= g -> (1 <= t1 <= t2)%Z ->
  1 <= (1 + g) ^ t1 <= (1 + g) ^ t2.
Proof.
  intros Hg Ht. split.
  - apply Qpower_1_le; [lra | lia].
  - apply Qpower_le_compat_l; [lia | lra].
Qed.

Lemma compound_monotone (b g : Q) (t1 t2 : Z) :
  0 <= b -> 0 <= g -> (1 <= t1 <= t2)%Z ->
  b <= b * (1 + g) ^ t1 <= b * (1 + g) ^ t2.
Proof.
  intros Hb Hg Ht.
  pose proof (growth_factor_monotone g t1 t2 Hg Ht) as [H1 H2].
  set (u1 := (1 + g) ^ t1) in *. set (u2 := (1 + g) ^ t2) in *.
  split; nra.
Qed.

(** X6. Growth never shrinks: with non-negative base values and growth
    rates, no technology and no total ever falls below the base value
    or below an earlier year's value. *)
Theorem generation_never_shrinks sc pm base_year bs bon boff p r1 r2 :
  0 <= bs -> 0 <= bon -> 0 <= boff ->
  0 <= solar_growth p -> 0 <= wind_onshore_growth p ->
  0 <= wind_offshore_growth p ->
  let rows := scenario_rows sc pm base_year
                (mkBase (Fin bs) (Fin bon) (Fin boff)) p in
  In r1 rows -> In r2 rows ->
  (Scenario.Year r1 <= Scenario.Year r2)%Z ->
  (fle (Fin bs) (Scenario.Photovoltaics r1) /\
   fle (Scenario.Photovoltaics r1) (Scenario.Photovoltaics r2)) /\
  (fle (Fin bon) (Scenario.Wind_Onshore r1) /\
   fle (Scenario.Wind_Onshore r1) (Scenario.Wind_Onshore r2)) /\
  (fle (Fin boff) (Scenario.Wind_Offshore r1) /\
   fle (Scenario.Wind_Offshore r1) (Scenario.Wind_Offshore r2)) /\
  (fle (Fin (bs + bon + boff)) (Scenario.Total_Renewable r1) /\
   fle (Scenario.Total_Renewable r1) (Scenario.Total_Renewable r2)).
Proof.
  intros Hs Hon Hoff Hgs Hgon Hgoff rows H1 H2 Hle. subst rows.
  apply In_scenario_rows in H1, H2.
  destruct H1 as (y1 & Hy1 & ->), H2 as (y2 & Hy2 & ->).
  cbn [scenario_row Scenario.Year] in Hle.
  cbn [scenario_row Scenario.Photovoltaics Scenario.Wind_Onshore
       Scenario.Wind_Offshore Scenario.Total_Renewable
       solar_mwh wind_onshore_mwh wind_offshore_mwh fmul fadd fle].
  assert (Ht : (1 <= y1 - base_year <= y2 - base_year)%Z) by lia.
  pose proof (compound_monotone bs _ _ _ Hs Hgs Ht) as [A1 A2].
  pose proof (compound_monotone bon _ _ _ Hon Hgon Ht) as [B1 B2].
  pose proof (compound_monotone boff _ _ _ Hoff Hgoff Ht) as [C1 C2].
  repeat split; try assumption; lra.
Qed.

(** ** Windows too small to fit or to average *)

Lemma linregress_single (x y : Q) : linregress [x] [y] = Ok (NaN, NaN).
Proof.
  unfold linregress. cbn [amax amin fold_left List.length Nat.ltb Nat.leb].
  rewrite andb_false_r.
  assert (E : ssxm [x] == 0).
  { unfold ssxm, qmean, Qsum, Qlen. cbn. field. }
  now rewrite (Qeq_eq_bool _ _ E).
Qed.

Lemma trend_values_single (r : History.row) (year : Z) :
  trend_values [r] year = Ok (mkBase NaN NaN NaN).
Proof.
  unfold trend_values, trend_value. cbn [map].
  now rewrite !linregress_single.
Qed.

Lemma scenario_rows_nan sc pm base_year p r :
  In r (scenario_rows sc pm base_year (mkBase NaN NaN NaN) p) ->
  Scenario.Photovoltaics r = NaN /\ Scenario.Wind_Onshore r = NaN /\
  Scenario.Wind_Offshore r = NaN /\ Scenario.Total_Renewable r = NaN.
Proof.
  intros Hin. apply In_scenario_rows in Hin. destruct Hin as (y & _ & ->).
  repeat split.
Qed.

(** X7. A trend fitted on one single row is no error: the regression
    answers [nan], the base values are [nan], and every projected
    generation value and total is [nan] (the shares are not affected). *)
Theorem single_row_trend_projects_nan sliders df sc pm cp p r0 :
  pm = "5-Year Trend (2021-2025)" \/ pm = "Full Historical Trend (2015-2025)" ->
  trend_window pm df = [r0] ->
  scenario_params sc cp sliders = Ok p ->
  base_year_and_values df pm = Ok (2025%Z, mkBase NaN NaN NaN) /\
  exists rows,
    generate_future_scenarios_enhanced sliders df sc pm cp
      = Ok (rows, 2025%Z, mkBase NaN NaN NaN) /\
    List.length rows = 25%nat /\
    forall r, In r rows ->
      Scenario.Photovoltaics r = NaN /\ Scenario.Wind_Onshore r = NaN /\
      Scenario.Wind_Offshore r = NaN /\ Scenario.Total_Renewable r = NaN.
Proof.
  intros Hpm Hw Hp.
  assert (Hne : df <> []).
  { intros ->. unfold trend_window in Hw.
    destruct (String.eqb _ _); discriminate. }
  assert (Hb : base_year_and_values df pm = Ok (2025%Z, mkBase NaN NaN NaN)).
  { rewrite (base_year_and_values_trend df pm Hpm Hne), Hw.
    now rewrite trend_values_single. }
  split; [exact Hb|].
  eexists. split; [exact (generate_ok _ _ _ _ _ _ _ _ Hb Hp)|].
  split; [now rewrite scenario_rows_length|].
  intros r. apply scenario_rows_nan.
Qed.

(** X8. The 3-year average of a frame without a row from 2023 on is no
    error either: the base values are [nan] and so is every projected
    generation value and total. *)
Theorem no_recent_row_average_projects_nan sliders df sc cp p :
  df <> [] -> year_ge 2023 df = [] ->
  scenario_params sc cp sliders = Ok p ->
  exists rows,
    generate_future_scenarios_enhanced sliders df sc
      "3-Year Average (2023-2025)" cp
      = Ok (rows, 2025%Z, mkBase NaN NaN NaN) /\
    List.length rows = 25%nat /\
    forall r, In r rows ->
      Scenario.Photovoltaics r = NaN /\ Scenario.Wind_Onshore r = NaN /\
      Scenario.Wind_Offshore r = NaN /\ Scenario.Total_Renewable r = NaN.
Proof.
  intros Hne Hw Hp.
  assert (Hb : base_year_and_values df "3-Year Average (2023-2025)"
               = Ok (2025%Z, mkBase NaN NaN NaN)).
  { destruct df; [congruence|]. unfold base_year_and_values.
    cbn [empty String.eqb Ascii.eqb Bool.eqb]. now rewrite Hw. }
  eexists. split; [exact (generate_ok _ _ _ _ _ _ _ _ Hb Hp)|].
  split; [now rewrite scenario_rows_length|].
  intros r. apply scenario_rows_nan.
Qed.

(** ** Method names *)

(** X9. No method name is refused: every name other than the first three
    is handled as the full historical trend. *)
Theorem unknown_method_is_full_trend (df : DataFrame) (pm : string) :
  pm <> "Last Year Available (2025)" ->
  pm <> "3-Year Average (2023-2025)" ->
  pm <> "5-Year Trend (2021-2025)" ->
  base_year_and_values df pm
  = base_year_and_values df "Full Historical Trend (2015-2025)".
Proof.
  intros H1 H2 H3. unfold base_year_and_values.
  apply String.eqb_neq in H1, H2, H3. rewrite H1, H2, H3.
  reflexivity.
Qed.

(** ** The average of data that is not negative *)

Lemma mean_nonneg (tech : History.row -> Q) (w : DataFrame) :
  w <> [] -> (forall r, In r w -> 0 <= tech r) ->
  exists m, mean (map tech w) = Fin m /\ 0 <= m.
Proof.
  intros Hne H.
  destruct (mean_spec (map tech w)) as (m & E & Hm).
  { intros E. apply map_eq_nil in E. contradiction. }
  exists m. split; [exact E|].
  rewrite Qlen_map in Hm.
  pose proof (Qlen_pos w Hne) as Hn.
  pose proof (Qsum_map_nonneg tech w H) as H0.
  rewrite <- Hm in H0.
  destruct (Qlt_le_dec m 0) as [Hneg|]; [|assumption].
  exfalso. nra.
Qed.

(** X12. The 3-year average of data that is not negative is not negative:
    when there is a row from 2023 on and no such row holds a negative
    value, the three base values are finite and not negative. *)
Theorem average_not_negative (df : DataFrame) :
  year_ge 2023 df <> [] ->
  (forall r, In r (year_ge 2023 df) ->
     0 <= History.Photovoltaics r /\ 0 <= History.Wind_Onshore r /\
     0 <= History.Wind_Offshore r) ->
  exists pv won woff,
    base_year_and_values df "3-Year Average (2023-2025)"
      = Ok (2025%Z, mkBase (Fin pv) (Fin won) (Fin woff)) /\
    0 <= pv /\ 0 <= won /\ 0 <= woff.
Proof.
  intros Hw H.
  assert (Hne : df <> []) by now apply (year_ge_nonempty 2023).
  destruct (mean_nonneg History.Photovoltaics _ Hw) as (pv & E1 & B1);
    [intros r Hr; apply (H r Hr)|].
  destruct (mean_nonneg History.Wind_Onshore _ Hw) as (won & E2 & B2);
    [intros r Hr; apply (H r Hr)|].
  destruct (mean_nonneg History.Wind_Offshore _ Hw) as (woff & E3 & B3);
    [intros r Hr; apply (H r Hr)|].
  exists pv, won, woff. split; [|auto].
  destruct df; [congruence|]. unfold base_year_and_values.
  cbn [empty String.eqb Ascii.eqb Bool.eqb]. now rewrite E1, E2, E3.
Qed.

(** ** Projected years and the history *)

Lemma base_year_latest (df : DataFrame) (base_year : Z) (bv : BaseValues) :
  df <> [] ->
  base_year_and_values df "Last Year Available (2025)" = Ok (base_year, bv) ->
  base_year = year_max df.
Proof.
  intros Hne. unfold base_year_and_values. destruct df; [congruence|].
  cbn [empty String.eqb Ascii.eqb Bool.eqb].
  destruct (year_eq _ _); [discriminate|].
  intros H. now inversion H.
Qed.

Lemma base_year_fixed (df : DataFrame) (pm : string) (base_year : Z)
    (bv : BaseValues) :
  pm <> "Last Year Available (2025)" ->
  base_year_and_values df pm = Ok (base_year, bv) ->
  base_year = 2025%Z.
Proof.
  intros Hpm. apply String.eqb_neq in Hpm.
  unfold base_year_and_values. rewrite Hpm.
  destruct (empty df); [intros H; now inversion H|].
  destruct (String.eqb pm "3-Year Average (2023-2025)");
    [intros H; now inversion H|].
  destruct (String.eqb pm "5-Year Trend (2021-2025)");
    unfold bind; destruct (trend_values _ _); try discriminate;
    intros H; now inversion H.
Qed.

(** X13. With the "last year available" method every projected year
    comes after every year of the history: the projection and the data
    never overlap. *)
Theorem latest_year_projection_follows_history sliders df sc cp rows
    base_year bv :
  df <> [] ->
  generate_future_scenarios_enhanced sliders df sc
    "Last Year Available (2025)" cp = Ok (rows, base_year, bv) ->
  forall h r, In h df -> In r rows ->
    (History.Year h < Scenario.Year r)%Z.
Proof.
  intros Hne Hgen h r Hh Hr.
  apply generate_inv in Hgen. destruct Hgen as (p & Hb & _ & ->).
  apply (base_year_latest df base_year bv Hne) in Hb. subst base_year.
  apply In_scenario_rows in Hr. destruct Hr as (y & Hy & ->).
  pose proof (year_max_ge df h Hh). cbn [scenario_row Scenario.Year]. lia.
Qed.

(** X14. With every other method the projection runs over 2026, ...,
    2050 whatever years the history holds: a history that reaches a
    year after 2025 gets a projected row for that same year. *)
Theorem fixed_base_projection_ignores_history sliders df sc pm cp rows
    base_year bv :
  pm <> "Last Year Available (2025)" ->
  generate_future_scenarios_enhanced sliders df sc pm cp
    = Ok (rows, base_year, bv) ->
  base_year = 2025%Z /\
  map Scenario.Year rows = range 2026 2051 /\
  (forall h, In h df -> (2025 < History.Year h <= 2050)%Z ->
     exists r, In r rows /\ Scenario.Year r = History.Year h).
Proof.
  intros Hpm Hgen.
  apply generate_inv in Hgen. destruct Hgen as (p & Hb & _ & ->).
  apply (base_year_fixed df pm base_year bv Hpm) in Hb. subst base_year.
  split; [reflexivity|]. split.
  - unfold scenario_rows. rewrite map_map. cbn [scenario_row Scenario.Year].
    now rewrite map_id.
  - intros h _ Hy.
    exists (scenario_row sc pm 2025 bv p (History.Year h)).
    split; [|reflexivity].
    apply In_scenario_rows. exists (History.Year h). split; [lia | reflexivity].
Qed.

(** ** Looking a year up in the projection *)

Lemma filter_map_comm {A B : Type} (f : A -> B) (q : B -> bool) (l : list A) :
  filter q (map f l) = map f (filter (fun a => q (f a)) l).
Proof.
  induction l as [|a l IH]; cbn; [reflexivity|].
  destruct (q (f a)); cbn; now rewrite IH.
Qed.

Lemma filter_eq_seq (lo y : Z) (s n : nat) :
  filter (fun x => (x =? y)%Z) (map (fun i => (lo + Z.of_nat i)%Z) (seq s n))
  = if ((lo + Z.of_nat s <=? y) && (y <? lo + Z.of_nat s + Z.of_nat n))%Z
    then [y] else [].
Proof.
  revert s. induction n as [|n IH]; intros s.
  - cbn [seq map filter].
    destruct (lo + Z.of_nat s <=? y)%Z eqn:E1; cbn [andb]; [|reflexivity].
    destruct (y <? lo + Z.of_nat s + Z.of_nat 0)%Z eqn:E2; [|reflexivity].
    apply Z.leb_le in E1. apply Z.ltb_lt in E2. lia.
  - cbn [seq map filter]. rewrite IH.
    destruct (lo + Z.of_nat s =? y)%Z eqn:E.
    + apply Z.eqb_eq in E. subst y.
      replace ((lo + Z.of_nat (S s) <=? lo + Z.of_nat s)%Z) with false
        by (symmetry; apply Z.leb_gt; lia).
      replace ((lo + Z.of_nat s <=? lo + Z.of_nat s)%Z) with true
        by (symmetry; apply Z.leb_le; lia).
      replace ((lo + Z.of_nat s <? lo + Z.of_nat s + Z.of_nat (S n))%Z) with true
        by (symmetry; apply Z.ltb_lt; lia).
      reflexivity.
    + apply Z.eqb_neq in E.
      destruct (lo + Z.of_nat (S s) <=? y)%Z eqn:E1;
        destruct (lo + Z.of_nat s <=? y)%Z eqn:E2;
        destruct (y <? lo + Z.of_nat (S s) + Z.of_nat n)%Z eqn:E3;
        destruct (y <? lo + Z.of_nat s + Z.of_nat (S n))%Z eqn:E4;
        cbn [andb]; try reflexivity; exfalso;
        rewrite ?Z.leb_le, ?Z.leb_gt, ?Z.ltb_lt, ?Z.ltb_ge in *; lia.
Qed.

Lemma filter_eq_range (lo hi y : Z) :
  filter (fun x => (x =? y)%Z) (range lo hi)
  = if ((lo <=? y) && (y <? hi))%Z then [y] else [].
Proof.
  unfold range. rewrite filter_eq_seq.
  destruct (lo <=? y)%Z eqn:E1.
  - replace (lo + Z.of_nat 0 <=? y)%Z with true
      by (symmetry; apply Z.leb_le; apply Z.leb_le in E1; lia).
    cbn [andb]. apply Z.leb_le in E1.
    destruct (y <? hi)%Z eqn:E2.
    + replace (y <? lo + Z.of_nat 0 + Z.of_nat (Z.to_nat (hi - lo)))%Z with true
        by (symmetry; apply Z.ltb_lt; apply Z.ltb_lt in E2; lia).
      reflexivity.
    + replace (y <? lo + Z.of_nat 0 + Z.of_nat (Z.to_nat (hi - lo)))%Z with false
        by (symmetry; apply Z.ltb_ge; apply Z.ltb_ge in E2; lia).
      reflexivity.
  - replace (lo + Z.of_nat 0 <=? y)%Z with false
      by (symmetry; apply Z.leb_gt; apply Z.leb_gt in E1; lia).
    reflexivity.
Qed.

Lemma scenario_rows_of_year sc pm base_year bv p (y : Z) :
  filter (fun r => (Scenario.Year r =? y)%Z) (scenario_rows sc pm base_year bv p)
  = if ((base_year <? y) && (y <=? 2050))%Z
    then [scenario_row sc pm base_year bv p y] else [].
Proof.
  unfold scenario_rows. rewrite filter_map_comm.
  cbn [scenario_row Scenario.Year]. rewrite filter_eq_range.
  replace (base_year + 1 <=? y)%Z with (base_year <? y)%Z
    by (destruct (base_year <? y)%Z eqn:E; symmetry;
        [apply Z.leb_le; apply Z.ltb_lt in E | apply Z.leb_gt; apply Z.ltb_ge in E];
        lia).
  replace (y <? 2051)%Z with (y <=? 2050)%Z
    by (destruct (y <=? 2050)%Z eqn:E; symmetry;
        [apply Z.ltb_lt; apply Z.leb_le in E | apply Z.ltb_ge; apply Z.leb_gt in E];
        lia).
  now destruct ((base_year <? y) && (y <=? 2050))%Z.
Qed.

(** X15. The metrics of a selected year: the projection holds exactly
    one row for each year after the base year up to 2050, and the four
    metrics shown are that row's; for any other year nothing is shown. *)
Theorem year_metrics_lookup sc pm base_year bv p (selected_year : Z) :
  let rows := scenario_rows sc pm base_year bv p in
  ((base_year < selected_year <= 2050)%Z ->
     filter (fun r => (Scenario.Year r =? selected_year)%Z) rows
       = [scenario_row sc pm base_year bv p selected_year] /\
     year_metrics rows selected_year
       = Some (mkYearMetrics
                 (fmul (solar_mwh bv)
                       (Fin ((1 + solar_growth p) ^ (selected_year - base_year))))
                 (fmul (wind_onshore_mwh bv)
                       (Fin ((1 + wind_onshore_growth p)
                             ^ (selected_year - base_year))))
                 (fmul (wind_offshore_mwh bv)
                       (Fin ((1 + wind_offshore_growth p)
                             ^ (selected_year - base_year))))
                 (renewable_share (renewable_target_2050 p) base_year
                                  selected_year * 100))) /\
  (~ (base_year < selected_year <= 2050)%Z ->
     year_metrics rows selected_year = None).
Proof.
  intros rows. subst rows. split.
  - intros Hy.
    assert (E : ((base_year <? selected_year) && (selected_year <=? 2050))%Z
                = true).
    { apply andb_true_intro. split; [apply Z.ltb_lt | apply Z.leb_le]; lia. }
    pose proof (scenario_rows_of_year sc pm base_year bv p selected_year) as F.
    rewrite E in F. split; [exact F|].
    unfold year_metrics. rewrite F.
    destruct (scenario_rows sc pm base_year bv p) eqn:El; [discriminate F|].
    reflexivity.
  - intros Hy.
    assert (E : ((base_year <? selected_year) && (selected_year <=? 2050))%Z
                = false).
    { destruct (base_year <? selected_year)%Z eqn:E1; [|reflexivity].
      destruct (selected_year <=? 2050)%Z eqn:E2; [|reflexivity].
      apply Z.ltb_lt in E1. apply Z.leb_le in E2. exfalso. apply Hy. lia. }
    pose proof (scenario_rows_of_year sc pm base_year bv p selected_year) as F.
    rewrite E in F. unfold year_metrics. rewrite F.
    now destruct (scenario_rows sc pm base_year bv p).
Qed.

(** ** Milestones *)

Lemma fold_min_le (l : list Z) (a : Z) :
  (fold_left Z.min l a <= a)%Z /\
  (forall y, In y l -> (fold_left Z.min l a <= y)%Z).
Proof.
  revert a. induction l as [|b l IH]; intros a; cbn.
  - split; [lia | intros y []].
  - destruct (IH (Z.min a b)) as [H1 H2]. split; [lia|].
    intros y [<-|Hy]; [lia | now apply H2].
Qed.

Lemma fold_min_in (l : list Z) (a : Z) :
  fold_left Z.min l a = a \/ In (fold_left Z.min l a) l.
Proof.
  revert a. induction l as [|b l IH]; intros a; cbn.
  - now left.
  - destruct (IH (Z.min a b)) as [H|H].
    + rewrite H. destruct (Z.min_spec a b) as [[_ ->]|[_ ->]]; auto.
    + auto.
Qed.

Lemma years_min_spec (years : list Z) :
  match years_min years with
  | None => years = []
  | Some m => In m years /\ forall y, In y years -> (m <= y)%Z
  end.
Proof.
  destruct years as [|a l]; cbn [years_min]; [reflexivity|].
  pose proof (fold_min_le l a) as [H1 H2].
  split.
  - destruct (fold_min_in l a) as [-> | H]; [now left | now right].
  - intros y [<- | Hy]; auto.
Qed.

Lemma year_reached_spec (rows : list Scenario.row) (t : Z) :
  match year_reached rows t with
  | None => forall r, In r rows -> ~ inject_Z t <= Scenario.Renewable_Share r
  | Some y =>
    (exists r, In r rows /\ Scenario.Year r = y /\
               inject_Z t <= Scenario.Renewable_Share r) /\
    (forall r, In r rows -> inject_Z t <= Scenario.Renewable_Share r ->
               (y <= Scenario.Year r)%Z)
  end.
Proof.
  unfold year_reached.
  pose proof (years_min_spec
    (map Scenario.Year
       (filter (fun r => Qle_bool (inject_Z t) (Scenario.Renewable_Share r))
               rows))) as H.
  destruct (years_min _) as [y|].
  - destruct H as [Hin Hmin]. split.
    + apply in_map_iff in Hin. destruct Hin as (r & Hy & Hr).
      apply filter_In in Hr. destruct Hr as [Hr Hq].
      exists r. split; [exact Hr|]. split; [exact Hy|].
      now apply Qle_bool_iff.
    + intros r Hr Hq. apply Hmin. apply in_map. apply filter_In.
      split; [exact Hr | now apply Qle_bool_iff].
  - intros r Hr Hq. apply map_eq_nil in H.
    assert (Hf : In r (filter (fun r => Qle_bool (inject_Z t)
                                 (Scenario.Renewable_Share r)) rows))
      by (apply filter_In; split; [exact Hr | now apply Qle_bool_iff]).
    rewrite H in Hf. exact Hf.
Qed.

Lemma flat_map_option {A B : Type} (g : A -> option Z) (h : A -> Z -> B)
    (c : A -> bool) (l : list A) :
  (forall a, In a l -> (c a = true <-> g a <> None)) ->
  flat_map (fun a => match g a with Some y => [h a y] | None => [] end) l
  = map (fun a => h a (match g a with Some y => y | None => 0%Z end))
        (filter c l).
Proof.
  induction l as [|a l IH]; intros H; [reflexivity|].
  cbn [flat_map filter].
  rewrite IH by (intros b Hb; apply H; now right).
  pose proof (H a (or_introl eq_refl)) as [H1 H2].
  destruct (g a) as [y|] eqn:E.
  - rewrite H2 by discriminate. cbn [map app]. now rewrite E.
  - destruct (c a); [exfalso; now apply H1 | reflexivity].
Qed.

Lemma reached_iff (rows : list Scenario.row) (t : Z) :
  reached rows t = true <-> year_reached rows t <> None.
Proof.
  unfold reached. rewrite existsb_exists.
  pose proof (year_reached_spec rows t) as H.
  destruct (year_reached rows t) as [y|].
  - destruct H as [(r & Hr & _ & Hq) _]. split; [discriminate|]. intros _.
    exists r. split; [exact Hr | now apply Qle_bool_iff].
  - split; [|congruence]. intros (r & Hr & Hq). exfalso.
    apply (H r Hr). now apply Qle_bool_iff.
Qed.

(** X16. The milestones of a projection that has rows: of the thresholds
    50, 65, 80, 90, 95, in that order, exactly those that the share of
    some row reaches are listed, each with the least year of a row that
    reaches it; and when a threshold is reached, so is every lower one,
    in a year that is not later. *)
Theorem milestones_first_years (scenario_data : list Scenario.row) :
  scenario_data <> [] ->
  exists first_year : Z -> Z,
    milestones scenario_data
    = Shown (map (fun t => milestone_text t (first_year t))
                 (filter (reached scenario_data) thresholds)) /\
    (forall t, reached scenario_data t = true ->
       (exists r, In r scenario_data /\ Scenario.Year r = first_year t /\
                  inject_Z t <= Scenario.Renewable_Share r) /\
       (forall r, In r scenario_data ->
                  inject_Z t <= Scenario.Renewable_Share r ->
                  (first_year t <= Scenario.Year r)%Z)) /\
    (forall t1 t2, (t1 <= t2)%Z -> reached scenario_data t2 = true ->
       reached scenario_data t1 = true /\ (first_year t1 <= first_year t2)%Z).
Proof.
  intros Hne.
  set (first_year := fun t => match year_reached scenario_data t with
                              | Some y => y
                              | None => 0%Z
                              end).
  assert (Hspec : forall t, reached scenario_data t = true ->
            (exists r, In r scenario_data /\ Scenario.Year r = first_year t /\
                       inject_Z t <= Scenario.Renewable_Share r) /\
            (forall r, In r scenario_data ->
                       inject_Z t <= Scenario.Renewable_Share r ->
                       (first_year t <= Scenario.Year r)%Z)).
  { intros t Ht. apply reached_iff in Ht. subst first_year. cbv beta.
    pose proof (year_reached_spec scenario_data t) as H.
    destruct (year_reached scenario_data t) as [y|]; [exact H | congruence]. }
  exists first_year. split; [|split; [exact Hspec|]].
  - transitivity
      (Shown (flat_map
                (fun threshold =>
                   match year_reached scenario_data threshold with
                   | Some y => [milestone_text threshold y]
                   | None => []
                   end)
                thresholds)).
    + unfold milestones. destruct scenario_data; [congruence | reflexivity].
    + f_equal. apply flat_map_option. intros t _. apply reached_iff.
  - intros t1 t2 Hle H2.
    destruct (Hspec t2 H2) as [(r & Hr & Hy & Hq) _].
    assert (Hq1 : inject_Z t1 <= Scenario.Renewable_Share r).
    { apply Qle_trans with (inject_Z t2); [|exact Hq].
      rewrite <- Zle_Qle. exact Hle. }
    assert (H1 : reached scenario_data t1 = true).
    { unfold reached. apply existsb_exists. exists r.
      split; [exact Hr | now apply Qle_bool_iff]. }
    split; [exact H1|].
    destruct (Hspec t1 H1) as [_ Hmin]. rewrite <- Hy. now apply Hmin.
Qed.

(** ** Comparing methods and scenarios *)






Lemma year_2050_of_frame name sc pm base_year bv p :
  (base_year < 2050)%Z ->
  year_2050_data (map (set_scenario name) (scenario_rows sc pm base_year bv p))
  = [set_scenario name (scenario_row sc pm base_year bv p 2050)].
Proof.
  intros Hb. unfold year_2050_data. rewrite filter_map_comm.
  cbn [set_scenario Scenario.Year].
  rewrite scenario_rows_of_year.
  replace ((base_year <? 2050) && (2050 <=? 2050))%Z with true; [reflexivity|].
  symmetry. apply andb_true_intro. split; [apply Z.ltb_lt | apply Z.leb_le]; lia.
Qed.

Lemma year_2050_data_app (l1 l2 : list Scenario.row) :
  year_2050_data (l1 ++ l2) = (year_2050_data l1 ++ year_2050_data l2)%list.
Proof. apply filter_app. Qed.

Lemma frame_of_named sliders df sc pm base_year bv p :
  base_year_and_values df pm = Ok (base_year, bv) ->
  scenario_params sc None sliders = Ok p ->
  (out <- generate_future_scenarios_enhanced sliders df sc pm None ;;
   Ok (map (set_scenario sc) (fst (fst out))))
  = Ok (map (set_scenario sc) (scenario_rows sc pm base_year bv p)).
Proof.
  intros Hb Hp. now rewrite (generate_ok _ _ _ _ _ _ _ _ Hb Hp).
Qed.

(** X18. The scenario comparison: whenever the baseline exists with a
    base year before 2050, and the selected scenario is not the custom
    one, the comparison succeeds and its rows of 2050 are one per named
    scenario, in the order Conservative, Business as Usual, Ambitious,
    with the shares 70, 85 and 95 and the deltas -15, none and +10,
    whatever the data and the method. *)
Theorem scenario_comparison_2050 sliders df sc pm cp base_year bv :
  base_year_and_values df pm = Ok (base_year, bv) ->
  (base_year < 2050)%Z ->
  sc <> "Custom" ->
  exists rows c b a,
    scenario_comparison sliders df sc pm cp = Ok rows /\
    year_2050_data rows = [c; b; a] /\
    (Scenario.Scenario c = "Conservative" /\
     Scenario.Renewable_Share c == 70 /\
     exists d, delta_2050 c = Some d /\ d == -15) /\
    (Scenario.Scenario b = "Business as Usual" /\
     Scenario.Renewable_Share b == 85 /\ delta_2050 b = None) /\
    (Scenario.Scenario a = "Ambitious" /\
     Scenario.Renewable_Share a == 95 /\
     exists d, delta_2050 a = Some d /\ d == 10).
Proof.
  intros Hb Hlt Hsc. apply String.eqb_neq in Hsc.
  set (pc := mkParams 0.04 0.02 0.06 0.005 0.70).
  set (pb := mkParams 0.075 0.04 0.12 0.015 0.85).
  set (pa := mkParams 0.12 0.07 0.18 0.025 0.95).
  assert (E : scenario_comparison sliders df sc pm cp
              = Ok (map (set_scenario "Conservative")
                        (scenario_rows "Conservative" pm base_year bv pc)
                    ++ map (set_scenario "Business as Usual")
                           (scenario_rows "Business as Usual" pm base_year bv pb)
                    ++ map (set_scenario "Ambitious")
                           (scenario_rows "Ambitious" pm base_year bv pa)
                    ++ [])%list).
  { unfold scenario_comparison. cbn [for_each].
    rewrite (frame_of_named sliders df "Conservative" pm base_year bv pc Hb eq_refl).
    rewrite (frame_of_named sliders df "Business as Usual" pm base_year bv pb
               Hb eq_refl).
    rewrite (frame_of_named sliders df "Ambitious" pm base_year bv pa Hb eq_refl).
    rewrite Hsc. reflexivity. }
  eexists. eexists. eexists. eexists. split; [exact E|].
  split.
  { rewrite !year_2050_data_app, !year_2050_of_frame by exact Hlt.
    reflexivity. }
  cbn [set_scenario scenario_row Scenario.Scenario Scenario.Renewable_Share
       delta_2050 String.eqb Ascii.eqb Bool.eqb].
  pose proof (renewable_share_2050 0.70 base_year Hlt) as S1.
  pose proof (renewable_share_2050 0.85 base_year Hlt) as S2.
  pose proof (renewable_share_2050 0.95 base_year Hlt) as S3.
  cbn [renewable_target_2050 pc pb pa].
  split; [|split].
  - split; [reflexivity|]. split; [rewrite S1; reflexivity|].
    eexists. split; [reflexivity|]. rewrite S1. reflexivity.
  - split; [reflexivity|]. split; [rewrite S2; reflexivity | reflexivity].
  - split; [reflexivity|]. split; [rewrite S3; reflexivity|].
    eexists. split; [reflexivity|]. rewrite S3. reflexivity.
Qed.

(** X19. Preparing [custom_params] changes nothing: the script's call,
    which builds the dictionary from the sliders when the custom
    scenario is selected, returns exactly what the function returns
    without it, for every scenario name and every state of the
    sliders. *)
Theorem prepared_custom_params_are_redundant sliders df sc pm :
  scenario_data_of sliders df sc pm
  = generate_future_scenarios_enhanced sliders df sc pm None.
Proof.
  unfold scenario_data_of, generate_future_scenarios_enhanced.
  destruct (base_year_and_values df pm) as [[y bv]|e]; [|reflexivity].
  cbn [bind].
  assert (E : scenario_params sc (prepare_custom_params sc sliders) sliders
              = scenario_params sc None sliders).
  { unfold prepare_custom_params.
    destruct (String.eqb sc "Custom") eqn:Ec; [|reflexivity].
    apply String.eqb_eq in Ec. subst sc.
    now destruct sliders. }
  now rewrite E.
Qed.

(** * The loader *)

Lemma load_generation_data_eq (workbook : option (list Sheet)) :
  load_generation_data workbook = annual_data (loaded_rows workbook).
Proof.
  destruct workbook as [sheets|]; [|reflexivity].
  unfold load_generation_data, loaded_rows.
  destruct (read_sheets sheets) as [all_data|]; [|reflexivity].
  now destruct all_data.
Qed.

(** The loop keeps the sheets whose name satisfies [isdigit], in workbook
    order, when [int] converts each of those names; it raises as soon as
    one does not convert. *)
Lemma read_sheets_spec (sheets : list Sheet) :
  let kept := filter (fun sh => str_isdigit (sheet_name sh)) sheets in
  if forallb (fun sh => match int_of_str (sheet_name sh) with
                        | Some _ => true
                        | None => false
                        end) kept
  then read_sheets sheets = Ok (map sheet_rows kept)
  else raises (read_sheets sheets) = true.
Proof.
  induction sheets as [|sh rest IH]; [reflexivity|].
  cbn [read_sheets filter] in *.
  destruct (str_isdigit (sheet_name sh)); [|exact IH].
  cbn [forallb map].
  destruct (int_of_str (sheet_name sh)); [|reflexivity].
  cbn [andb].
  destruct (forallb _ _).
  - now rewrite IH.
  - destruct (read_sheets rest); [discriminate IH | reflexivity].
Qed.

Lemma In_loaded_rows (sheets : list Sheet) (r : Raw.row) :
  In r (loaded_rows (Some sheets)) <->
  (forall sh, In sh sheets -> str_isdigit (sheet_name sh) = true ->
              int_of_str (sheet_name sh) <> None) /\
  exists sh, In sh sheets /\ str_isdigit (sheet_name sh) = true /\
             In r (sheet_rows sh).
Proof.
  unfold loaded_rows. pose proof (read_sheets_spec sheets) as H.
  cbv zeta in H.
  set (kept := filter (fun sh => str_isdigit (sheet_name sh)) sheets) in *.
  set (conv := fun sh : Sheet => match int_of_str (sheet_name sh) with
                                 | Some _ => true
                                 | None => false
                                 end) in *.
  assert (Hall : forallb conv kept = true <->
                 forall sh, In sh sheets -> str_isdigit (sheet_name sh) = true ->
                            int_of_str (sheet_name sh) <> None).
  { rewrite forallb_forall. subst kept conv. split.
    - intros Hk sh Hin Hd. specialize (Hk sh). rewrite filter_In in Hk.
      specialize (Hk (conj Hin Hd)). cbv beta in Hk.
      destruct (int_of_str (sheet_name sh)); [discriminate | discriminate Hk].
    - intros Hk sh Hin. apply filter_In in Hin. destruct Hin as [Hin Hd].
      specialize (Hk sh Hin Hd). cbv beta.
      destruct (int_of_str (sheet_name sh)); [reflexivity | congruence]. }
  destruct (forallb conv kept) eqn:E.
  - rewrite H. rewrite in_concat. split.
    + intros (l & Hl & Hr). split; [now apply Hall|].
      apply in_map_iff in Hl. destruct Hl as (sh & <- & Hsh).
      subst kept. apply filter_In in Hsh. destruct Hsh as [Hin Hd].
      now exists sh.
    + intros (_ & sh & Hin & Hd & Hr). exists (sheet_rows sh).
      split; [|exact Hr]. apply in_map. subst kept. apply filter_In. now split.
  - destruct (read_sheets sheets); [discriminate H|].
    split; [intros [] |]. intros [Hk _]. apply Hall in Hk. discriminate Hk.
Qed.

Lemma In_unique (l : list Z) (y : Z) : In y (unique l) <-> In y l.
Proof.
  induction l as [|x l IH]; [reflexivity|].
  cbn [unique In]. rewrite filter_In, IH, negb_true_iff, Z.eqb_neq.
  destruct (Z.eq_dec x y) as [->|Hn]; [tauto|].
  split; [tauto|]. intros [H|H]; [tauto|]. right. split; [exact H | congruence].
Qed.

Lemma NoDup_unique (l : list Z) : NoDup (unique l).
Proof.
  induction l as [|x l IH]; [constructor|].
  cbn [unique]. constructor.
  - rewrite filter_In, negb_true_iff, Z.eqb_neq. tauto.
  - now apply NoDup_filter.
Qed.

Lemma annual_data_years (df : list Raw.row) :
  map Annual.Year (annual_data df) = unique (map Raw.Start_year df).
Proof.
  unfold annual_data. rewrite map_map. cbn [annual_row Annual.Year].
  apply map_id.
Qed.

(** X20. The annual frame has one row per year: its years are pairwise
    different, they are exactly the years in which a kept time step
    starts, and they come in the order of their first appearance.  The
    kept time steps are those of the sheets whose name satisfies
    [isdigit], provided [int] converts every such name; a workbook that
    cannot be read, that has a name [int] refuses, or that has no such
    sheet or time step gives the frame without rows. *)
Theorem loader_one_row_per_year (workbook : option (list Sheet)) :
  let out := load_generation_data workbook in
  NoDup (map Annual.Year out) /\
  (forall y, In y (map Annual.Year out) <->
             exists r, In r (loaded_rows workbook) /\ Raw.Start_year r = y) /\
  map Annual.Year out = unique (map Raw.Start_year (loaded_rows workbook)) /\
  (out = [] <-> loaded_rows workbook = []) /\
  (forall sheets r, workbook = Some sheets ->
     (In r (loaded_rows workbook) <->
      (forall sh, In sh sheets -> str_isdigit (sheet_name sh) = true ->
                  int_of_str (sheet_name sh) <> None) /\
      exists sh, In sh sheets /\ str_isdigit (sheet_name sh) = true /\
                 In r (sheet_rows sh))) /\
  (workbook = None -> out = []).
Proof.
  intros out. subst out. rewrite load_generation_data_eq, annual_data_years.
  split; [apply NoDup_unique|]. split; [|split; [reflexivity|split; [|split]]].
  - intros y. rewrite In_unique, in_map_iff.
    split; intros (r & H1 & H2); exists r; tauto.
  - unfold annual_data.
    destruct (loaded_rows workbook) as [|r l]; [tauto|].
    cbn. split; discriminate.
  - intros sheets r ->. apply In_loaded_rows.
  - intros ->. reflexivity.
Qed.

Lemma Qsum_map_plus {A : Type} (f g : A -> Q) (l : list A) :
  Qsum (map (fun a => f a + g a) l) == Qsum (map f l) + Qsum (map g l).
Proof.
  induction l as [|a l IH]; [cbn; ring|].
  change (f a + g a + Qsum (map (fun a => f a + g a) l)
          == f a + Qsum (map f l) + (g a + Qsum (map g l))).
  rewrite IH. ring.
Qed.

Lemma In_annual_data (df : list Raw.row) (r : Annual.row) :
  In r (annual_data df) <->
  exists raw, In raw df /\ r = annual_row df (Raw.Start_year raw).
Proof.
  unfold annual_data. rewrite in_map_iff. split.
  - intros (y & <- & Hy). apply (proj1 (In_unique _ _)) in Hy.
    apply in_map_iff in Hy.
    destruct Hy as (raw & <- & Hraw). now exists raw.
  - intros (raw & Hraw & ->). exists (Raw.Start_year raw). split; [reflexivity|].
    apply In_unique. now apply in_map.
Qed.

(** X22. From the workbook to the baseline: under "last year available"
    the base year is the latest year in which a kept time step starts,
    and the base values are the sums of the three columns over the time
    steps of that year. *)
Theorem latest_year_baseline_of_workbook (workbook : option (list Sheet)) :
  loaded_rows workbook <> [] ->
  let df := loaded_rows workbook in
  exists year : Z,
    (exists raw, In raw df /\ Raw.Start_year raw = year) /\
    (forall raw, In raw df -> (Raw.Start_year raw <= year)%Z) /\
    base_year_and_values (map history_of (load_generation_data workbook))
                         "Last Year Available (2025)"
    = let year_data := filter (fun r => (Raw.Start_year r =? year)%Z) df in
      Ok (year,
          mkBase (Fin (sum_skipna (map Raw.Photovoltaics year_data)))
                 (Fin (sum_skipna (map Raw.Wind_onshore year_data)))
                 (Fin (sum_skipna (map Raw.Wind_offshore year_data)))).
Proof.
  intros Hne df. subst df. rewrite load_generation_data_eq.
  set (df := loaded_rows workbook) in *.
  set (d := map history_of (annual_data df)).
  assert (Hd : d <> []).
  { subst d. unfold annual_data. destruct df as [|r l]; [congruence|].
    discriminate. }
  pose proof (year_eq_max_nonempty d Hd) as Hf.
  destruct (year_eq (year_max d) d) as [|h rest] eqn:E; [congruence|].
  assert (Hin : In h (year_eq (year_max d) d)) by (rewrite E; now left).
  apply filter_In in Hin. destruct Hin as [Hin Hyr]. apply Z.eqb_eq in Hyr.
  subst d. apply in_map_iff in Hin. destruct Hin as (a & <- & Ha).
  apply In_annual_data in Ha. destruct Ha as (raw & Hraw & ->).
  exists (Raw.Start_year raw).
  split; [now exists raw|]. split.
  - intros raw' Hraw'.
    change (Raw.Start_year raw)
      with (History.Year (history_of (annual_row df (Raw.Start_year raw)))).
    rewrite Hyr.
    change (Raw.Start_year raw')
      with (History.Year (history_of (annual_row df (Raw.Start_year raw')))).
    apply year_max_ge. apply in_map. apply In_annual_data. now exists raw'.
  - unfold base_year_and_values.
    destruct (map history_of (annual_data df)) as [|h0 t0] eqn:Ed; [congruence|].
    cbn [empty String.eqb Ascii.eqb Bool.eqb]. rewrite E, <- Hyr. reflexivity.
Qed.

(** * The key metrics *)

Lemma year_range_inv start_year end_year (df filtered : list Annual.row) :
  year_range start_year end_year df = Shown filtered ->
  forall r, In r filtered ->
    In r df /\ (start_year <= Annual.Year r <= end_year)%Z.
Proof.
  unfold year_range. destruct df as [|r0 l]; [discriminate|].
  remember (r0 :: l) as df eqn:Edf.
  intros H. injection H as <-. intros r Hr.
  apply filter_In in Hr. destruct Hr as [Hr Hc].
  apply andb_true_iff in Hc. destruct Hc as [H1 H2].
  apply Z.leb_le in H1, H2. auto.
Qed.

Lemma total_of_columns (rows : list Annual.row) :
  (forall r, In r rows ->
     Annual.Total_Generation r
     = Annual.Photovoltaics r + Annual.Wind_Onshore r + Annual.Wind_Offshore r) ->
  Qsum (map Annual.Total_Generation rows)
  == Qsum (map Annual.Photovoltaics rows)
     + (Qsum (map Annual.Wind_Onshore rows)
        + Qsum (map Annual.Wind_Offshore rows)).
Proof.
  intros Htot.
  rewrite (Qsum_map_ext Annual.Total_Generation
             (fun r => Annual.Photovoltaics r + Annual.Wind_Onshore r
                       + Annual.Wind_Offshore r))
    by (intros r Hr; now rewrite (Htot r Hr)).
  rewrite (Qsum_map_plus (fun r => Annual.Photovoltaics r + Annual.Wind_Onshore r)
             Annual.Wind_Offshore).
  rewrite (Qsum_map_plus Annual.Photovoltaics Annual.Wind_Onshore).
  ring.
Qed.

Lemma loader_row_total (workbook : option (list Sheet)) (r : Annual.row) :
  In r (load_generation_data workbook) ->
  Annual.Total_Generation r
  = Annual.Photovoltaics r + Annual.Wind_Onshore r + Annual.Wind_Offshore r.
Proof.
  rewrite load_generation_data_eq. intros Hr.
  apply In_annual_data in Hr. destruct Hr as (raw & _ & ->). reflexivity.
Qed.

Lemma sum_skipna_nonneg (col : Raw.row -> pyfloat) (rows : list Raw.row) :
  (forall r, In r rows -> 0 <= nan_as_zero (col r)) ->
  0 <= sum_skipna (map col rows).
Proof.
  intros H. unfold sum_skipna. rewrite map_map.
  now apply Qsum_map_nonneg.
Qed.

(** The rows of a year range of the loaded frame, when no kept cell is
    negative: no total is negative, and each row's total is the sum of
    its three technologies. *)
Lemma loaded_rows_nonneg (workbook : option (list Sheet))
    (start_year end_year : Z) (filtered : list Annual.row) :
  (forall raw, In raw (loaded_rows workbook) ->
     0 <= nan_as_zero (Raw.Photovoltaics raw) /\
     0 <= nan_as_zero (Raw.Wind_onshore raw) /\
     0 <= nan_as_zero (Raw.Wind_offshore raw)) ->
  year_range start_year end_year (load_generation_data workbook)
    = Shown filtered ->
  forall r, In r filtered ->
    0 <= Annual.Photovoltaics r /\ 0 <= Annual.Wind_Onshore r /\
    0 <= Annual.Wind_Offshore r /\
    Annual.Total_Generation r
    = Annual.Photovoltaics r + Annual.Wind_Onshore r + Annual.Wind_Offshore r.
Proof.
  intros Hpos Hrange r Hr. apply (year_range_inv _ _ _ _ Hrange) in Hr.
  destruct Hr as [Hr _]. rewrite load_generation_data_eq in Hr.
  apply In_annual_data in Hr. destruct Hr as (raw & _ & ->).
  cbn [annual_row Annual.Photovoltaics Annual.Wind_Onshore
       Annual.Wind_Offshore Annual.Total_Generation].
  repeat split; try reflexivity; apply sum_skipna_nonneg;
    intros r Hr; apply filter_In in Hr; destruct Hr as [Hr _];
    apply (Hpos r Hr).
Qed.

(** X23. The shares of the key metrics stay within their range: when no
    kept cell is negative and the total of the selected years is not
    zero, the solar share is a number between 0 and 100, the wind share
    is a number that is not negative, and so is the average shown. *)
Theorem shares_within_range (workbook : option (list Sheet))
    (start_year end_year : Z) (filtered : list Annual.row) (m : KeyMetrics) :
  (forall raw, In raw (loaded_rows workbook) ->
     0 <= nan_as_zero (Raw.Photovoltaics raw) /\
     0 <= nan_as_zero (Raw.Wind_onshore raw) /\
     0 <= nan_as_zero (Raw.Wind_offshore raw)) ->
  year_range start_year end_year (load_generation_data workbook)
    = Shown filtered ->
  key_metrics filtered = Some m ->
  ~ total_gen m == 0 ->
  exists s w a,
    solar_share m = NFin s /\ wind_share m = NFin w /\ avg_annual m = Fin a /\
    0 <= s <= 100 /\ 0 <= w /\ 0 <= a.
Proof.
  intros Hpos Hrange Hm Hnz.
  pose proof (loaded_rows_nonneg workbook start_year end_year filtered Hpos Hrange)
    as Hrow.
  pose proof (total_of_columns filtered
                (fun r Hr => proj2 (proj2 (proj2 (Hrow r Hr))))) as Hsum.
  assert (HP : 0 <= Qsum (map Annual.Photovoltaics filtered))
    by (apply Qsum_map_nonneg; intros r Hr; apply (Hrow r Hr)).
  assert (HW1 : 0 <= Qsum (map Annual.Wind_Onshore filtered))
    by (apply Qsum_map_nonneg; intros r Hr; apply (Hrow r Hr)).
  assert (HW2 : 0 <= Qsum (map Annual.Wind_Offshore filtered))
    by (apply Qsum_map_nonneg; intros r Hr; apply (Hrow r Hr)).
  unfold key_metrics in Hm. destruct filtered as [|r0 l] eqn:Ef; [discriminate|].
  rewrite <- Ef in *. injection Hm as <-.
  cbn [total_gen solar_share wind_share avg_annual] in *.
  set (T := Qsum (map Annual.Total_Generation filtered)) in *.
  set (P := Qsum (map Annual.Photovoltaics filtered)) in *.
  set (W1 := Qsum (map Annual.Wind_Onshore filtered)) in *.
  set (W2 := Qsum (map Annual.Wind_Offshore filtered)) in *.
  assert (HT : 0 < T) by lra.
  unfold np_div.
  destruct (Qeq_bool T 0) eqn:ET; [apply Qeq_bool_eq in ET; contradiction|].
  cbn [np_times].
  destruct (mean_spec (map Annual.Total_Generation filtered)) as (a & Ea & Ha).
  { rewrite Ef. discriminate. }
  rewrite Qlen_map in Ha. fold T in Ha.
  assert (Hn : 0 < Qlen filtered) by (apply Qlen_pos; rewrite Ef; discriminate).
  eexists. eexists. exists a.
  split; [reflexivity|]. split; [reflexivity|]. split; [exact Ea|].
  assert (HPT : 0 <= P / T <= 1).
  { split.
    - apply Qle_shift_div_l; [exact HT | lra].
    - apply Qle_shift_div_r; [exact HT | lra]. }
  assert (HWT : 0 <= (W1 + W2) / T)
    by (apply Qle_shift_div_l; [exact HT | lra]).
  split; [lra|]. split; [lra|].
  destruct (Qlt_le_dec a 0) as [Hneg|]; [|assumption].
  exfalso. nra.
Qed.

(** X24. A period without generation divides by zero without failing:
    when no kept cell is negative and the total of the selected years
    is zero, both shares are [nan]. *)
Theorem zero_generation_shares_nan (workbook : option (list Sheet))
    (start_year end_year : Z) (filtered : list Annual.row) (m : KeyMetrics) :
  (forall raw, In raw (loaded_rows workbook) ->
     0 <= nan_as_zero (Raw.Photovoltaics raw) /\
     0 <= nan_as_zero (Raw.Wind_onshore raw) /\
     0 <= nan_as_zero (Raw.Wind_offshore raw)) ->
  year_range start_year end_year (load_generation_data workbook)
    = Shown filtered ->
  key_metrics filtered = Some m ->
  total_gen m == 0 ->
  solar_share m = NNaN /\ wind_share m = NNaN.
Proof.
  intros Hpos Hrange Hm Hz.
  assert (Hrow : forall r, In r filtered ->
            0 <= Annual.Photovoltaics r /\ 0 <= Annual.Wind_Onshore r /\
            0 <= Annual.Wind_Offshore r /\
            Annual.Total_Generation r
            = Annual.Photovoltaics r + Annual.Wind_Onshore r
              + Annual.Wind_Offshore r).
  { intros r Hr. apply (year_range_inv _ _ _ _ Hrange) in Hr.
    destruct Hr as [Hr _]. rewrite load_generation_data_eq in Hr.
    apply In_annual_data in Hr. destruct Hr as (raw & _ & ->).
    cbn [annual_row Annual.Photovoltaics Annual.Wind_Onshore
         Annual.Wind_Offshore Annual.Total_Generation].
    repeat split; try reflexivity; apply sum_skipna_nonneg;
      intros r Hr; apply filter_In in Hr; destruct Hr as [Hr _];
      apply (Hpos r Hr). }
  pose proof (total_of_columns filtered (fun r Hr => proj2 (proj2 (proj2 (Hrow r Hr)))))
    as Hsum.
  assert (HP : 0 <= Qsum (map Annual.Photovoltaics filtered))
    by (apply Qsum_map_nonneg; intros r Hr; apply (Hrow r Hr)).
  assert (HW1 : 0 <= Qsum (map Annual.Wind_Onshore filtered))
    by (apply Qsum_map_nonneg; intros r Hr; apply (Hrow r Hr)).
  assert (HW2 : 0 <= Qsum (map Annual.Wind_Offshore filtered))
    by (apply Qsum_map_nonneg; intros r Hr; apply (Hrow r Hr)).
  unfold key_metrics in Hm. destruct filtered as [|r0 l] eqn:Ef; [discriminate|].
  rewrite <- Ef in *. injection Hm as <-.
  cbn [total_gen solar_share wind_share] in *.
  set (T := Qsum (map Annual.Total_Generation filtered)) in *.
  set (P := Qsum (map Annual.Photovoltaics filtered)) in *.
  set (W1 := Qsum (map Annual.Wind_Onshore filtered)) in *.
  set (W2 := Qsum (map Annual.Wind_Offshore filtered)) in *.
  assert (EP : P == 0) by lra.
  assert (EW : W1 + W2 == 0) by lra.
  unfold np_div.
  rewrite (Qeq_eq_bool _ _ Hz), (Qeq_eq_bool _ _ EP), (Qeq_eq_bool _ _ EW).
  split; reflexivity.
Qed.

End Dashboard.

(** * The properties at sample inputs

    The sample histories are run with the SciPy that installs today,
    and the sample workbooks, whose sheet names are ASCII, with the two
    builtins as they are on such names. *)

(** ** The projection *)

Lemma C1_projected_record_witness :
  let r := scenario_row "Business as Usual" "Last Year Available (2025)"
                        2048 base_2048 bau_params 2049 in
  In r (scenario_rows "Business as Usual" "Last Year Available (2025)"
                      2048 base_2048 bau_params) /\
  (1 <= Scenario.Year r - 2048 <= horizon_year - 2048)%Z /\
  Scenario.Photovoltaics r = Fin (1000 * (1 + 0.075) ^ 1) /\
  Scenario.Renewable_Share r
    == 100 * Qmin 0.85 (0.45 + (0.85 - 0.45) * (1 / 2)).
Proof.
  intros r.
  assert (Hin : In r (scenario_rows "Business as Usual"
                        "Last Year Available (2025)" 2048 base_2048 bau_params))
    by (left; reflexivity).
  split; [exact Hin|].
  pose proof (C1_projected_record _ _ _ _ _ _ Hin) as H.
  cbv zeta in H.
  destruct H as (Ht & Hpv & _ & _ & _ & Hsh & _).
  split; [exact Ht|]. split; [exact Hpv|]. exact Hsh.
Defined.

Lemma C7_projection_years_witness :
  (2048 < horizon_year)%Z /\
  Z.of_nat (List.length (scenario_rows "Ambitious" "Last Year Available (2025)"
                           2048 base_2048 bau_params)) = (horizon_year - 2048)%Z /\
  map Scenario.Year (scenario_rows "Ambitious" "Last Year Available (2025)"
                       2048 base_2048 bau_params) = [2049; 2050]%Z.
Proof.
  assert (Hlt : (2048 < horizon_year)%Z) by reflexivity.
  split; [exact Hlt|].
  pose proof (C7_projection_years "Ambitious" "Last Year Available (2025)"
                2048 base_2048 bau_params Hlt) as H.
  cbv zeta in H. destruct H as (Hlen & _ & Hmap & _).
  split; [exact Hlen | exact Hmap].
Defined.

Lemma C9_empty_projection_from_horizon_witness :
  (horizon_year <= 2050)%Z /\
  scenario_rows "Conservative" "Last Year Available (2025)"
                2050 base_2048 bau_params = [].
Proof.
  assert (Hge : (horizon_year <= 2050)%Z) by (unfold horizon_year; lia).
  split; [exact Hge|].
  exact (proj1 (C9_empty_projection_from_horizon NanOnEmpty
                  "Conservative" "Last Year Available (2025)"
                  2050 base_2048 bau_params Hge)).
Defined.

(** C9, as stated, fails: a history whose latest year is 2050 gives base
    year 2050 = horizon, and the function returns the empty sequence. *)
Lemma C9_counterexample :
  (horizon_year <= 2050)%Z /\
  generate_future_scenarios_enhanced NanOnEmpty None [hist 2050 1 2 3]
    "Conservative" "Last Year Available (2025)" None
  = Ok ([], 2050%Z, mkBase (Fin 1) (Fin 2) (Fin 3)).
Proof. split; [unfold horizon_year; lia | reflexivity]. Qed.

Lemma C10_empty_frame_defaults_witness :
  scenario_params "Business as Usual" None None = Ok bau_params /\
  generate_future_scenarios_enhanced NanOnEmpty None [] "Business as Usual"
    "3-Year Average (2023-2025)" None
  = Ok (scenario_rows "Business as Usual" "3-Year Average (2023-2025)"
          2025 default_base_values bau_params,
        2025%Z, default_base_values) /\
  List.length (scenario_rows "Business as Usual" "3-Year Average (2023-2025)"
                 2025 default_base_values bau_params) = 25%nat.
Proof.
  assert (Hp : scenario_params "Business as Usual" None None = Ok bau_params)
    by reflexivity.
  split; [exact Hp|].
  pose proof (C10_empty_frame_defaults NanOnEmpty None "Business as Usual"
                "3-Year Average (2023-2025)" None bau_params Hp) as H.
  cbv zeta in H. destruct H as (_ & Hgen & Hlen & _).
  split; [exact Hgen | exact Hlen].
Defined.

(** ** The scenario parameters *)

Lemma C5_custom_is_the_default_branch_witness :
  named_scenario "Hydrogen Boom" = false /\
  scenario_params "Hydrogen Boom" (Some bau_params) None
    = scenario_params "Custom" (Some bau_params) None.
Proof.
  split; [reflexivity|].
  exact (proj1 (C5_custom_is_the_default_branch
                  "Hydrogen Boom" (Some bau_params) None) eq_refl).
Defined.

(** C5, as stated, fails twice: an unknown scenario name is accepted, and
    the custom scenario succeeds without parameters from the caller when
    the sliders exist. *)
Lemma C5_counterexample :
  scenario_params "Hydrogen Boom" (Some bau_params) None = Ok bau_params /\
  raises (generate_future_scenarios_enhanced NanOnEmpty None df_2023_2025
            "Hydrogen Boom" "Last Year Available (2025)" (Some bau_params))
    = false /\
  raises (scenario_params "Custom" None (Some sliders_default)) = false.
Proof. repeat split. Qed.

(** C6, as stated, fails: a parameter set of the caller's with a target
    of 57% is taken as it is, and the share projected for 2050 is 57,
    not 90. *)
Lemma C6_counterexample :
  scenario_params "Custom" (Some params_57) (Some sliders_default)
    = Ok params_57 /\
  ~ renewable_target_2050 params_57 == 0.90 /\
  (exists rows,
     generate_future_scenarios_enhanced NanOnEmpty (Some sliders_default) []
       "Custom" "Last Year Available (2025)" (Some params_57)
     = Ok (rows, 2025%Z, default_base_values) /\
     In (scenario_row "Custom" "Last Year Available (2025)" 2025
           default_base_values params_57 2050) rows) /\
  Scenario.Renewable_Share
    (scenario_row "Custom" "Last Year Available (2025)" 2025
       default_base_values params_57 2050) == 57.
Proof.
  split; [reflexivity|]. split; [discriminate|]. split.
  - exists (scenario_rows "Custom" "Last Year Available (2025)" 2025
              default_base_values params_57).
    split; [reflexivity|].
    apply In_scenario_rows. exists 2050%Z. split; [lia | reflexivity].
  - reflexivity.
Qed.

(** ** The baseline *)

Example sample_3y :
  base_year_and_values NanOnEmpty df_2023_2025 "3-Year Average (2023-2025)"
  = Ok (2025%Z, mkBase (Fin (60 / 3)) (Fin (600 / 3)) (Fin (6 / 3))).
Proof. reflexivity. Qed.

(** A window of one single row: the regression answers [nan], and so
    does the mean of a window without rows. *)
Example one_row_trend :
  base_year_and_values NanOnEmpty [hist 2020 1 2 3]
    "Full Historical Trend (2015-2025)"
  = Ok (2025%Z, mkBase NaN NaN NaN).
Proof. reflexivity. Qed.

Example no_recent_row_average :
  base_year_and_values NanOnEmpty [hist 2020 1 2 3] "3-Year Average (2023-2025)"
  = Ok (2025%Z, mkBase NaN NaN NaN).
Proof. reflexivity. Qed.

Lemma C8_latest_year_witness :
  df_2023_2025 <> [] /\
  exists r,
    In r df_2023_2025 /\
    base_year_and_values NanOnEmpty df_2023_2025 "Last Year Available (2025)"
      = Ok (History.Year r,
            mkBase (Fin (History.Photovoltaics r))
                   (Fin (History.Wind_Onshore r))
                   (Fin (History.Wind_Offshore r))) /\
    History.Year r = 2025%Z.
Proof.
  assert (Hne : df_2023_2025 <> []) by discriminate.
  split; [exact Hne|].
  destruct (C8_latest_year NanOnEmpty df_2023_2025 Hne)
    as (r & Hin & _ & Hb & Hy & _).
  exists r. split; [exact Hin|]. split; [exact Hb | exact Hy].
Defined.

(** A frame with rows but none from 2021 on, under the 5-year trend:
    the older SciPy raises, the newer one answers [nan] and the
    function returns 25 rows. *)
Example empty_trend_window_by_release :
  base_year_and_values RaisesOnEmpty [hist 2019 1 2 3] "5-Year Trend (2021-2025)"
    = Raise (ValueError "Inputs must not be empty.") /\
  base_year_and_values NanOnEmpty [hist 2019 1 2 3] "5-Year Trend (2021-2025)"
    = Ok (2025%Z, mkBase NaN NaN NaN) /\
  exists rows,
    generate_future_scenarios_enhanced NanOnEmpty None [hist 2019 1 2 3]
      "Business as Usual" "5-Year Trend (2021-2025)" None
    = Ok (rows, 2025%Z, mkBase NaN NaN NaN) /\
    List.length rows = 25%nat.
Proof.
  split; [reflexivity|]. split; [reflexivity|].
  eexists. split; reflexivity.
Qed.



(** ** The share and the growth *)

Lemma share_never_exceeds_target_witness :
  let r := scenario_row "Ambitious" "Last Year Available (2025)"
                        2048 base_2048 bau_params 2050 in
  (2048 < 2050)%Z /\
  In r (scenario_rows "Ambitious" "Last Year Available (2025)"
          2048 base_2048 bau_params) /\
  Scenario.Renewable_Share r <= renewable_target_2050 bau_params * 100.
Proof.
  intros r.
  assert (Hb : (2048 < 2050)%Z) by lia.
  assert (Hin : In r (scenario_rows "Ambitious" "Last Year Available (2025)"
                        2048 base_2048 bau_params))
    by (right; left; reflexivity).
  split; [exact Hb|]. split; [exact Hin|].
  exact (proj2 (share_never_exceeds_target "Ambitious"
                  "Last Year Available (2025)" 2048 base_2048 bau_params Hb)
               r Hin).
Defined.

Lemma share_is_the_ramp_witness :
  let r := scenario_row "Business as Usual" "Last Year Available (2025)"
                        2048 base_2048 bau_params 2049 in
  0.45 <= renewable_target_2050 bau_params /\
  In r (scenario_rows "Business as Usual" "Last Year Available (2025)"
          2048 base_2048 bau_params) /\
  45 <= Scenario.Renewable_Share r <= 100 * renewable_target_2050 bau_params.
Proof.
  intros r.
  assert (Ht : 0.45 <= renewable_target_2050 bau_params) by (cbn; lra).
  assert (Hin : In r (scenario_rows "Business as Usual"
                        "Last Year Available (2025)" 2048 base_2048 bau_params))
    by (left; reflexivity).
  split; [exact Ht|]. split; [exact Hin|].
  exact (proj2 (share_is_the_ramp _ _ _ _ _ r Ht Hin)).
Defined.

Lemma share_flat_before_2050_witness :
  let r := scenario_row "Custom" "Last Year Available (2025)"
                        2048 base_2048 low_target_params 2049 in
  renewable_target_2050 low_target_params < 0.45 /\
  In r (scenario_rows "Custom" "Last Year Available (2025)"
          2048 base_2048 low_target_params) /\
  (Scenario.Year r < 2050)%Z /\
  Scenario.Renewable_Share r = 0.30 * 100.
Proof.
  intros r.
  assert (Ht : renewable_target_2050 low_target_params < 0.45) by (cbn; lra).
  assert (Hin : In r (scenario_rows "Custom" "Last Year Available (2025)"
                        2048 base_2048 low_target_params))
    by (left; reflexivity).
  assert (Hy : (Scenario.Year r < 2050)%Z) by (cbn; lia).
  split; [exact Ht|]. split; [exact Hin|]. split; [exact Hy|].
  exact (share_flat_before_2050 _ _ _ _ _ r Ht Hin Hy).
Defined.

Lemma share_never_decreases_witness :
  let r1 := scenario_row "Business as Usual" "Last Year Available (2025)"
                         2048 base_2048 bau_params 2049 in
  let r2 := scenario_row "Business as Usual" "Last Year Available (2025)"
                         2048 base_2048 bau_params 2050 in
  0.45 <= renewable_target_2050 bau_params /\
  (Scenario.Year r1 <= Scenario.Year r2)%Z /\
  Scenario.Renewable_Share r1 <= Scenario.Renewable_Share r2.
Proof.
  intros r1 r2.
  assert (Ht : 0.45 <= renewable_target_2050 bau_params) by (cbn; lra).
  assert (Hle : (Scenario.Year r1 <= Scenario.Year r2)%Z) by (cbn; lia).
  split; [exact Ht|]. split; [exact Hle|].
  apply (share_never_decreases "Business as Usual"
           "Last Year Available (2025)" 2048 base_2048 bau_params r1 r2 Ht);
    [left; reflexivity | right; left; reflexivity | exact Hle].
Defined.

Lemma generation_never_shrinks_witness :
  let r1 := scenario_row "Business as Usual" "Last Year Available (2025)"
                         2048 base_2048 bau_params 2049 in
  let r2 := scenario_row "Business as Usual" "Last Year Available (2025)"
                         2048 base_2048 bau_params 2050 in
  0 <= solar_growth bau_params /\
  (Scenario.Year r1 <= Scenario.Year r2)%Z /\
  fle (Scenario.Photovoltaics r1) (Scenario.Photovoltaics r2).
Proof.
  intros r1 r2.
  assert (Hg1 : 0 <= solar_growth bau_params) by (cbn; lra).
  assert (Hg2 : 0 <= wind_onshore_growth bau_params) by (cbn; lra).
  assert (Hg3 : 0 <= wind_offshore_growth bau_params) by (cbn; lra).
  assert (Hle : (Scenario.Year r1 <= Scenario.Year r2)%Z) by (cbn; lia).
  split; [exact Hg1|]. split; [exact Hle|].
  assert (H1000 : 0 <= 1000) by lra.
  assert (H2000 : 0 <= 2000) by lra.
  assert (H500 : 0 <= 500) by lra.
  pose proof (generation_never_shrinks "Business as Usual"
                "Last Year Available (2025)" 2048 1000 2000 500 bau_params
                r1 r2 H1000 H2000 H500 Hg1 Hg2 Hg3) as H.
  cbv zeta in H.
  exact (proj2 (proj1 (H (or_introl eq_refl) (or_intror (or_introl eq_refl)) Hle))).
Defined.

(** ** Windows, method names and base years *)

Lemma single_row_trend_projects_nan_witness :
  trend_window "Full Historical Trend (2015-2025)" [hist 2024 1 2 3]
    = [hist 2024 1 2 3] /\
  base_year_and_values NanOnEmpty [hist 2024 1 2 3]
    "Full Historical Trend (2015-2025)"
    = Ok (2025%Z, mkBase NaN NaN NaN).
Proof.
  assert (Hw : trend_window "Full Historical Trend (2015-2025)"
                 [hist 2024 1 2 3] = [hist 2024 1 2 3]) by reflexivity.
  split; [exact Hw|].
  exact (proj1 (single_row_trend_projects_nan NanOnEmpty None [hist 2024 1 2 3]
                  "Business as Usual" "Full Historical Trend (2015-2025)"
                  None bau_params (hist 2024 1 2 3)
                  (or_intror eq_refl) Hw eq_refl)).
Defined.

Lemma no_recent_row_average_projects_nan_witness :
  [hist 2020 1 2 3] <> [] /\ year_ge 2023 [hist 2020 1 2 3] = [] /\
  exists rows,
    generate_future_scenarios_enhanced NanOnEmpty None [hist 2020 1 2 3]
      "Business as Usual" "3-Year Average (2023-2025)" None
    = Ok (rows, 2025%Z, mkBase NaN NaN NaN) /\
    List.length rows = 25%nat.
Proof.
  assert (Hne : [hist 2020 1 2 3] <> []) by discriminate.
  assert (Hw : year_ge 2023 [hist 2020 1 2 3] = []) by reflexivity.
  split; [exact Hne|]. split; [exact Hw|].
  destruct (no_recent_row_average_projects_nan NanOnEmpty None [hist 2020 1 2 3]
              "Business as Usual" None bau_params Hne Hw eq_refl)
    as (rows & E & L & _).
  exists rows. split; [exact E | exact L].
Defined.

Lemma unknown_method_is_full_trend_witness :
  base_year_and_values NanOnEmpty df_2024_2025 "Moving Average"
  = base_year_and_values NanOnEmpty df_2024_2025
      "Full Historical Trend (2015-2025)".
Proof.
  apply (unknown_method_is_full_trend NanOnEmpty); discriminate.
Defined.

Lemma average_not_negative_witness :
  year_ge 2023 df_2023_2025 <> [] /\
  exists pv won woff,
    base_year_and_values NanOnEmpty df_2023_2025 "3-Year Average (2023-2025)"
      = Ok (2025%Z, mkBase (Fin pv) (Fin won) (Fin woff)) /\
    0 <= pv /\ 0 <= won /\ 0 <= woff.
Proof.
  assert (Hw : year_ge 2023 df_2023_2025 <> []) by discriminate.
  split; [exact Hw|].
  apply (average_not_negative NanOnEmpty df_2023_2025 Hw).
  intros r [<- | [<- | [<- | []]]]; cbn; repeat split; lra.
Defined.

Lemma latest_year_projection_follows_history_witness :
  df_2025_2027 <> [] /\
  exists rows base_year bv,
    generate_future_scenarios_enhanced NanOnEmpty None df_2025_2027 "Ambitious"
      "Last Year Available (2025)" None = Ok (rows, base_year, bv) /\
    forall h r, In h df_2025_2027 -> In r rows ->
      (History.Year h < Scenario.Year r)%Z.
Proof.
  assert (Hne : df_2025_2027 <> []) by discriminate.
  split; [exact Hne|].
  eexists. eexists. eexists. split; [reflexivity|].
  apply (latest_year_projection_follows_history NanOnEmpty None df_2025_2027
           "Ambitious" None _ _ _ Hne eq_refl).
Defined.

Lemma fixed_base_projection_ignores_history_witness :
  exists rows base_year bv,
    generate_future_scenarios_enhanced NanOnEmpty None df_2025_2027 "Ambitious"
      "3-Year Average (2023-2025)" None = Ok (rows, base_year, bv) /\
    base_year = 2025%Z /\
    exists r, In r rows /\ Scenario.Year r = 2027%Z.
Proof.
  eexists. eexists. eexists. split; [reflexivity|].
  destruct (fixed_base_projection_ignores_history NanOnEmpty None df_2025_2027
              "Ambitious" "3-Year Average (2023-2025)" None _ _ _
              ltac:(discriminate) eq_refl) as (Hb & _ & Hov).
  split; [exact Hb|].
  apply (Hov (hist 2027 15 15 15)); [right; right; left; reflexivity|].
  cbn; lia.
Defined.

(** ** What the dashboard reads off the projection *)

Lemma year_metrics_lookup_witness :
  (2025 < 2040 <= 2050)%Z /\
  year_metrics (scenario_rows "Business as Usual" "3-Year Average (2023-2025)"
                  2025 default_base_values bau_params) 2040
  = Some (mkYearMetrics
            (Fin (15000000 * (1 + 0.075) ^ 15))
            (Fin (35000000 * (1 + 0.04) ^ 15))
            (Fin (5000000 * (1 + 0.12) ^ 15))
            (renewable_share 0.85 2025 2040 * 100)).
Proof.
  assert (Hy : (2025 < 2040 <= 2050)%Z) by lia.
  split; [exact Hy|].
  exact (proj2 (proj1 (year_metrics_lookup "Business as Usual"
                         "3-Year Average (2023-2025)" 2025 default_base_values
                         bau_params 2040) Hy)).
Defined.

Example milestones_bau :
  milestones (scenario_rows "Business as Usual" "3-Year Average (2023-2025)"
                2025 default_base_values bau_params)
  = Shown ["**50% renewable share:** 2029";
           "**65% renewable share:** 2038";
           "**80% renewable share:** 2047"].
Proof. reflexivity. Qed.

Lemma milestones_first_years_witness :
  let rows := scenario_rows "Business as Usual" "3-Year Average (2023-2025)"
                2025 default_base_values bau_params in
  rows <> [] /\
  filter (reached rows) thresholds = [50; 65; 80]%Z /\
  exists first_year : Z -> Z,
    milestones rows
    = Shown [milestone_text 50 (first_year 50%Z);
             milestone_text 65 (first_year 65%Z);
             milestone_text 80 (first_year 80%Z)] /\
    (first_year 50 <= first_year 65 <= first_year 80)%Z.
Proof.
  intros rows.
  assert (Hne : rows <> []) by discriminate.
  assert (Hf : filter (reached rows) thresholds = [50; 65; 80]%Z)
    by reflexivity.
  split; [exact Hne|]. split; [exact Hf|].
  destruct (milestones_first_years rows Hne) as (first_year & E & _ & Hmono).
  exists first_year. split.
  - rewrite E, Hf. reflexivity.
  - assert (H80 : reached rows 80 = true) by reflexivity.
    assert (H65 : reached rows 65 = true) by reflexivity.
    split.
    + apply (Hmono 50%Z 65%Z); [lia | exact H65].
    + apply (Hmono 65%Z 80%Z); [lia | exact H80].
Defined.


Lemma scenario_comparison_2050_witness :
  base_year_and_values NanOnEmpty df_2023_2025 "Last Year Available (2025)"
    = Ok (2025%Z, mkBase (Fin 30) (Fin 300) (Fin 3)) /\
  exists rows c b a,
    scenario_comparison NanOnEmpty None df_2023_2025 "Ambitious"
      "Last Year Available (2025)" None = Ok rows /\
    year_2050_data rows = [c; b; a] /\
    Scenario.Renewable_Share b == 85.
Proof.
  assert (Hb : base_year_and_values NanOnEmpty df_2023_2025
                 "Last Year Available (2025)"
               = Ok (2025%Z, mkBase (Fin 30) (Fin 300) (Fin 3))) by reflexivity.
  split; [exact Hb|].
  destruct (scenario_comparison_2050 NanOnEmpty None df_2023_2025 "Ambitious"
              "Last Year Available (2025)" None 2025
              (mkBase (Fin 30) (Fin 300) (Fin 3)) Hb
              ltac:(lia) ltac:(discriminate))
    as (rows & c & b & a & E & E50 & _ & (_ & Sb & _) & _).
  exists rows, c, b, a. split; [exact E|]. split; [exact E50 | exact Sb].
Defined.

(** ** The loader and the key metrics *)

Example load_sample :
  load_generation_data ascii_isdigit ascii_int workbook_sample
  = [Annual.mk 2024 (1 + (0 + 0)) (2 + (4 + 0)) (3 + (5 + 0))
               (1 + (0 + 0) + (2 + (4 + 0)) + (3 + (5 + 0)));
     Annual.mk 2025 (10 + 0) (20 + 0) (30 + 0) (10 + 0 + (20 + 0) + (30 + 0))].
Proof. reflexivity. Qed.

(** A name that satisfies [isdigit] and that [int] refuses: the loop
    raises, and the loader returns the frame without rows. *)
Example load_refused_name :
  load_generation_data (fun _ => true) ascii_int workbook_sample = [] /\
  loaded_rows (fun _ => true) ascii_int workbook_sample = [].
Proof. split; reflexivity. Qed.

Lemma latest_year_baseline_of_workbook_witness :
  loaded_rows ascii_isdigit ascii_int workbook_sample <> [] /\
  exists year : Z,
    (forall raw,
       In raw (loaded_rows ascii_isdigit ascii_int workbook_sample) ->
       (Raw.Start_year raw <= year)%Z) /\
    exists bv,
      base_year_and_values NanOnEmpty
        (map history_of
             (load_generation_data ascii_isdigit ascii_int workbook_sample))
        "Last Year Available (2025)" = Ok (year, bv).
Proof.
  assert (Hne : loaded_rows ascii_isdigit ascii_int workbook_sample <> [])
    by discriminate.
  split; [exact Hne|].
  destruct (latest_year_baseline_of_workbook NanOnEmpty ascii_isdigit ascii_int
              workbook_sample Hne)
    as (year & _ & Hmax & Hb).
  exists year. split; [exact Hmax|]. eexists. exact Hb.
Defined.

Lemma shares_within_range_witness :
  exists filtered m s w,
    year_range 2015 2025
      (load_generation_data ascii_isdigit ascii_int workbook_sample)
      = Shown filtered /\
    key_metrics filtered = Some m /\
    ~ total_gen m == 0 /\
    solar_share m = NFin s /\ wind_share m = NFin w /\
    0 <= s <= 100 /\ 0 <= w.
Proof.
  set (df := load_generation_data ascii_isdigit ascii_int workbook_sample).
  assert (Hr : year_range 2015 2025 df = Shown df) by reflexivity.
  destruct (key_metrics df) as [m|] eqn:Em; [|discriminate Em].
  assert (Hnz : ~ total_gen m == 0).
  { injection Em as <-. cbn. discriminate. }
  assert (Hpos : forall raw,
            In raw (loaded_rows ascii_isdigit ascii_int workbook_sample) ->
            0 <= nan_as_zero (Raw.Photovoltaics raw) /\
            0 <= nan_as_zero (Raw.Wind_onshore raw) /\
            0 <= nan_as_zero (Raw.Wind_offshore raw)).
  { intros raw [<- | [<- | [<- | []]]]; cbn; repeat split; lra. }
  destruct (shares_within_range ascii_isdigit ascii_int workbook_sample
              2015 2025 df m Hpos Hr Em Hnz)
    as (s & w & a & Hs & Hw & _ & Hsb & Hwb & _).
  exists df, m, s, w.
  split; [exact Hr|]. split; [exact Em|]. split; [exact Hnz|].
  split; [exact Hs|]. split; [exact Hw|]. split; [exact Hsb | exact Hwb].
Defined.

Lemma zero_generation_shares_nan_witness :
  exists filtered m,
    year_range 2015 2025
      (load_generation_data ascii_isdigit ascii_int workbook_idle)
      = Shown filtered /\
    key_metrics filtered = Some m /\
    total_gen m == 0 /\
    solar_share m = NNaN /\ wind_share m = NNaN.
Proof.
  set (df := load_generation_data ascii_isdigit ascii_int workbook_idle).
  assert (Hr : year_range 2015 2025 df = Shown df) by reflexivity.
  destruct (key_metrics df) as [m|] eqn:Em; [|discriminate Em].
  assert (Hz : total_gen m == 0) by (injection Em as <-; reflexivity).
  assert (Hpos : forall raw,
            In raw (loaded_rows ascii_isdigit ascii_int workbook_idle) ->
            0 <= nan_as_zero (Raw.Photovoltaics raw) /\
            0 <= nan_as_zero (Raw.Wind_onshore raw) /\
            0 <= nan_as_zero (Raw.Wind_offshore raw)).
  { intros raw [<- | []]. cbn. repeat split; lra. }
  exists df, m.
  split; [exact Hr|]. split; [exact Em|]. split; [exact Hz|].
  exact (zero_generation_shares_nan ascii_isdigit ascii_int workbook_idle
           2015 2025 _ m Hpos Hr Em Hz).
Defined.
